(** * AMR motion-control core: a shallow embedding and its verified properties

    The development follows the Arduino sources of the robot:
    - [Encoder.cpp] / [Encoder.h]       quadrature pulse counters,
    - [MotorDriver.cpp] (two variants)  PWM actuation and the velocity PID,
    - [Odometry.cpp]                    dead-reckoning pose integration,
    - [AMR_Complete.ino]                auto-turn, route execution, obstacle
                                        avoidance and wall-following start/stop.

    Conventions of the embedding.
    - [long] is a 32-bit two's-complement integer: arithmetic on it is written
      with [wrap_long]; [unsigned long] (the [millis()] clock) with
      [wrap_ulong].  [int] values stay far inside their range in the modelled
      code (PWM duties, waypoint indices) and are plain [Z].
    - [float] values are modelled by exact rationals [Q]: every operation is
      the exact one, so rounding error of the 32-bit format is not part of
      the model.  Comparisons are the boolean ones of the source.
    - Library functions without a rational counterpart ([cos], [sin],
      [atan2f], [sqrtf]) and the physical environment (encoder counts over
      time, calibrated distance readings) are Section variables. *)

From Stdlib Require Import String ZArith QArith Qround Qabs List Lia Lqa Bool.
Import ListNotations.
Local Open Scope Z_scope.

(** ** Machine integers and the float model *)

Definition wrap_long (z : Z) : Z := (z + 2 ^ 31) mod 2 ^ 32 - 2 ^ 31.

Definition wrap_ulong (z : Z) : Z := z mod 2 ^ 32.

(** Arduino's [constrain(x, lo, hi)] macro. *)
Definition constrain (x lo hi : Z) : Z :=
  if x <? lo then lo else if x >? hi then hi else x.

(** Arduino's [abs] macro and [labs] on a [long]. *)
Definition labs (x : Z) : Z := if x >? 0 then x else wrap_long (- x).

(** Conversion [(long)f] / [(int)f] of a float: truncation toward zero. *)
Definition long_of_float (q : Q) : Z := Z.quot (Qnum q) (Z.pos (Qden q)).

(** [round(f)]: nearest integer, halves away from zero. *)
Definition round (q : Q) : Z :=
  if Qle_bool 0 q then long_of_float (q + (1 # 2)) else long_of_float (q - (1 # 2)).

Definition fle (a b : Q) : bool := Qle_bool a b.
Definition fge (a b : Q) : bool := Qle_bool b a.
Definition flt (a b : Q) : bool := negb (Qle_bool b a).
Definition fgt (a b : Q) : bool := negb (Qle_bool a b).

(** [PI] as spelled in the Arduino core header. *)
Definition PI : Q := 31415926535897932384626433832795 # 10000000000000000000000000000000.

(** ** Encoder.h / Encoder.cpp *)

Module Encoder.

Definition DEFAULT_PULSES_PER_REVOLUTION : Z := 3418.
Definition WHEEL_DIAMETER_CM : Q := 1550 # 100.
Definition WHEEL_CIRCUMFERENCE_CM : Q := PI * WHEEL_DIAMETER_CM.
Definition WHEEL_BASE_CM : Q := 635 # 10.

Record t : Type := mk {
  leftPulses : Z;
  rightPulses : Z;
  pulsesPerRevolution : Z;
  leftInverted : bool;
  rightInverted : bool
}.

(** Static initialisers of Encoder.cpp. *)
Definition initial : t := mk 0 0 DEFAULT_PULSES_PER_REVOLUTION false true.

(** The direction decision shared by both interrupt handlers. *)
Definition quadrature_delta (A B inverted : bool) : Z :=
  let delta := if Bool.eqb A B then -1 else 1 in
  if inverted then - delta else delta.

Definition leftEncoderISR (A B : bool) (e : t) : t :=
  let delta := quadrature_delta A B (leftInverted e) in
  mk (wrap_long (leftPulses e + delta)) (rightPulses e)
     (pulsesPerRevolution e) (leftInverted e) (rightInverted e).

Definition rightEncoderISR (A B : bool) (e : t) : t :=
  let delta := quadrature_delta A B (rightInverted e) in
  mk (leftPulses e) (wrap_long (rightPulses e + delta))
     (pulsesPerRevolution e) (leftInverted e) (rightInverted e).


Definition setRightInverted (inv : bool) (e : t) : t :=
  mk (leftPulses e) (rightPulses e) (pulsesPerRevolution e) (leftInverted e) inv.

Definition getPulsesPerRevolution (e : t) : Z := pulsesPerRevolution e.

Definition setPulsesPerRevolution (v : Z) (e : t) : t :=
  if v >? 0
  then mk (leftPulses e) (rightPulses e) v (leftInverted e) (rightInverted e)
  else e.

Definition pulsesToCentimeters (e : t) (pulses : Z) : Q :=
  let revolutions := (inject_Z pulses / inject_Z (pulsesPerRevolution e))%Q in
  (revolutions * WHEEL_CIRCUMFERENCE_CM)%Q.

(** *** Interrupt context

    The handlers run in interrupt context.  A processor state carries the
    global interrupt-enable flag; a request that arrives while the flag is
    cleared stays pending and is served when [interrupts()] sets the flag
    again.  Each request carries the two channel levels its handler reads. *)

Inductive irq : Type :=
| IrqLeft (A B : bool)
| IrqRight (A B : bool).

Record cpu : Type := mkCpu {
  enc : t;
  iflag : bool;
  pending : list irq
}.

Definition serve (i : irq) (e : t) : t :=
  match i with
  | IrqLeft A B => leftEncoderISR A B e
  | IrqRight A B => rightEncoderISR A B e
  end.

Definition request (c : cpu) (i : irq) : cpu :=
  if iflag c
  then mkCpu (serve i (enc c)) true (pending c)
  else mkCpu (enc c) false (pending c ++ [i]).

Definition requests (l : list irq) (c : cpu) : cpu := fold_left request l c.

Definition noInterrupts (c : cpu) : cpu := mkCpu (enc c) false (pending c).

Definition interrupts (c : cpu) : cpu :=
  mkCpu (fold_left (fun e i => serve i e) (pending c) (enc c)) true [].


(** [readLeft()]: [noInterrupts(); temp = leftPulses; interrupts(); return temp;]
    with the requests that arrive between the statements made explicit. *)
Definition readLeft (during1 during2 : list irq) (c : cpu) : Z * cpu :=
  let c := noInterrupts c in
  let c := requests during1 c in
  let temp := leftPulses (enc c) in
  let c := requests during2 c in
  let c := interrupts c in
  (temp, c).

Definition readRight (during1 during2 : list irq) (c : cpu) : Z * cpu :=
  let c := noInterrupts c in
  let c := requests during1 c in
  let temp := rightPulses (enc c) in
  let c := requests during2 c in
  let c := interrupts c in
  (temp, c).

Definition resetBoth (c : cpu) : cpu :=
  let c := noInterrupts c in
  let e := enc c in
  let c := mkCpu (mk 0 0 (pulsesPerRevolution e) (leftInverted e) (rightInverted e))
                 (iflag c) (pending c) in
  interrupts c.






End Encoder.

(** ** MotorDriver.h: pins and speed constants (identical in both variants) *)

Module Pwm.

Definition MAX_SPEED : Z := 255.
Definition DEFAULT_SPEED : Z := 102.
Definition TURN_SPEED : Z := 51.
Definition MIN_SPEED : Z := 80.

Inductive pin : Type :=
| MOTOR_LEFT_RPWM
| MOTOR_LEFT_LPWM
| MOTOR_RIGHT_RPWM
| MOTOR_RIGHT_LPWM.

(** Duty last written to each of the four BTS7960 inputs. *)
Record t : Type := mk {
  left_rpwm : Z;
  left_lpwm : Z;
  right_rpwm : Z;
  right_lpwm : Z
}.

Definition analogWrite (p : pin) (value : Z) (o : t) : t :=
  match p with
  | MOTOR_LEFT_RPWM => mk value (left_lpwm o) (right_rpwm o) (right_lpwm o)
  | MOTOR_LEFT_LPWM => mk (left_rpwm o) value (right_rpwm o) (right_lpwm o)
  | MOTOR_RIGHT_RPWM => mk (left_rpwm o) (left_lpwm o) value (right_lpwm o)
  | MOTOR_RIGHT_LPWM => mk (left_rpwm o) (left_lpwm o) (right_rpwm o) value
  end.

Definition read (p : pin) (o : t) : Z :=
  match p with
  | MOTOR_LEFT_RPWM => left_rpwm o
  | MOTOR_LEFT_LPWM => left_lpwm o
  | MOTOR_RIGHT_RPWM => right_rpwm o
  | MOTOR_RIGHT_LPWM => right_lpwm o
  end.

Definition stop (o : t) : t :=
  let o := analogWrite MOTOR_LEFT_RPWM 0 o in
  let o := analogWrite MOTOR_LEFT_LPWM 0 o in
  let o := analogWrite MOTOR_RIGHT_RPWM 0 o in
  analogWrite MOTOR_RIGHT_LPWM 0 o.

End Pwm.

(** ** MotorDriver.cpp, per-wheel PID variant (right-wheel compensation 0.85) *)

Module MotorDriver.
Import Pwm.

Definition RIGHT_MOTOR_COMPENSATION : Q := 85 # 100.

Record t : Type := mk {
  velocityControlEnabled : bool;
  lastPIDMillis : Z;
  pidIntervalMs : Z;
  targetPpsLeft : Q;
  targetPpsRight : Q;
  appliedPpsLeft : Q;
  appliedPpsRight : Q;
  KpL : Q; KiL : Q; KdL : Q;
  integralL : Q;
  prevErrorL : Q;
  KpR : Q; KiR : Q; KdR : Q;
  integralR : Q;
  prevErrorR : Q;
  integralClamp : Q;
  rampTimeMs : Z
}.

(** Member initialisers of the class. *)
Definition initial : t :=
  mk false 0 50 0 0 0 0
     (8 # 100) (2 # 100) (2 # 1000) 0 0
     (8 # 100) (2 # 100) (2 # 1000) 0 0
     500 600.

Definition moveForward (speed : Z) (o : Pwm.t) : Pwm.t :=
  let speed := constrain speed MIN_SPEED MAX_SPEED in
  let rightSpeed := round (inject_Z speed * RIGHT_MOTOR_COMPENSATION) in
  let rightSpeed := constrain rightSpeed 0 MAX_SPEED in
  let o := analogWrite MOTOR_LEFT_RPWM 0 o in
  let o := analogWrite MOTOR_LEFT_LPWM speed o in
  let o := analogWrite MOTOR_RIGHT_RPWM 0 o in
  analogWrite MOTOR_RIGHT_LPWM rightSpeed o.

Definition setLeftMotor (speed : Z) (o : Pwm.t) : Pwm.t :=
  let speed := constrain speed (- MAX_SPEED) MAX_SPEED in
  if speed >? 0 then
    let speed := if speed <? MIN_SPEED then MIN_SPEED else speed in
    let o := analogWrite MOTOR_LEFT_RPWM 0 o in
    analogWrite MOTOR_LEFT_LPWM speed o
  else if speed <? 0 then
    let absSpeed := - speed in
    let absSpeed := if absSpeed <? MIN_SPEED then MIN_SPEED else absSpeed in
    let o := analogWrite MOTOR_LEFT_RPWM absSpeed o in
    analogWrite MOTOR_LEFT_LPWM 0 o
  else
    let o := analogWrite MOTOR_LEFT_RPWM 0 o in
    analogWrite MOTOR_LEFT_LPWM 0 o.

Definition setRightMotor (speed : Z) (o : Pwm.t) : Pwm.t :=
  let speed := constrain speed (- MAX_SPEED) MAX_SPEED in
  let compensatedSpeed := round (inject_Z speed * RIGHT_MOTOR_COMPENSATION) in
  let compensatedSpeed := constrain compensatedSpeed (- MAX_SPEED) MAX_SPEED in
  if compensatedSpeed >? 0 then
    let finalSpeed := compensatedSpeed in
    let finalSpeed :=
      if (finalSpeed <? MIN_SPEED) && (finalSpeed >? 0) then MIN_SPEED else finalSpeed in
    let o := analogWrite MOTOR_RIGHT_RPWM 0 o in
    analogWrite MOTOR_RIGHT_LPWM finalSpeed o
  else if compensatedSpeed <? 0 then
    let absSpeed := - compensatedSpeed in
    let absSpeed :=
      if (absSpeed <? MIN_SPEED) && (absSpeed >? 0) then MIN_SPEED else absSpeed in
    let o := analogWrite MOTOR_RIGHT_RPWM absSpeed o in
    analogWrite MOTOR_RIGHT_LPWM 0 o
  else
    let o := analogWrite MOTOR_RIGHT_RPWM 0 o in
    analogWrite MOTOR_RIGHT_LPWM 0 o.

Definition setBothMotors (leftSpeed rightSpeed : Z) (o : Pwm.t) : Pwm.t :=
  setRightMotor rightSpeed (setLeftMotor leftSpeed o).

Definition setPIDInterval (ms : Z) (m : t) : t :=
  let ms := if ms <? 5 then 5 else ms in
  mk (velocityControlEnabled m) (lastPIDMillis m) ms
     (targetPpsLeft m) (targetPpsRight m) (appliedPpsLeft m) (appliedPpsRight m)
     (KpL m) (KiL m) (KdL m) (integralL m) (prevErrorL m)
     (KpR m) (KiR m) (KdR m) (integralR m) (prevErrorR m)
     (integralClamp m) (rampTimeMs m).

(** The soft-start step written twice in the source, once per wheel: move
    the applied setpoint toward the target by at most [maxDelta]. *)
Definition ramp_toward (applied target maxDelta : Q) : Q :=
  if flt applied target then
    let applied := (applied + maxDelta)%Q in
    if fgt applied target then target else applied
  else if fgt applied target then
    let applied := (applied - maxDelta)%Q in
    if flt applied target then target else applied
  else applied.

Definition clamp_integral (integral clamp : Q) : Q :=
  let integral := if fgt integral clamp then clamp else integral in
  if flt integral (- clamp) then (- clamp)%Q else integral.

(** [updateVelocityControl(leftDeltaPulses, rightDeltaPulses, dtMs)];
    [now] is the value [millis()] returns inside the call. *)
Definition updateVelocityControl (now : Z)
    (leftDeltaPulses rightDeltaPulses dtMs : Z) (m : t) (o : Pwm.t) : t * Pwm.t :=
  if negb (velocityControlEnabled m) then (m, o) else
  if dtMs =? 0 then (m, o) else
  if wrap_ulong (now - lastPIDMillis m) <? pidIntervalMs m then (m, o) else
  let elapsed := wrap_ulong (now - lastPIDMillis m) in
  let dt := (inject_Z elapsed / 1000)%Q in
  let measPpsL := (inject_Z leftDeltaPulses / dt)%Q in
  let measPpsR := (inject_Z rightDeltaPulses / dt)%Q in
  let appliedL :=
    if rampTimeMs m >? 0 then
      let maxDeltaL :=
        (Qabs (targetPpsLeft m) / inject_Z (rampTimeMs m) * inject_Z elapsed)%Q in
      ramp_toward (appliedPpsLeft m) (targetPpsLeft m) maxDeltaL
    else targetPpsLeft m in
  let appliedR :=
    if rampTimeMs m >? 0 then
      let maxDeltaR :=
        (Qabs (targetPpsRight m) / inject_Z (rampTimeMs m) * inject_Z elapsed)%Q in
      ramp_toward (appliedPpsRight m) (targetPpsRight m) maxDeltaR
    else targetPpsRight m in
  let errorL := (appliedL - measPpsL)%Q in
  let integL := clamp_integral (integralL m + errorL * dt)%Q (integralClamp m) in
  let derivativeL := ((errorL - prevErrorL m) / dt)%Q in
  let pidOutL := (KpL m * errorL + KiL m * integL + KdL m * derivativeL)%Q in
  let errorR := (appliedR - measPpsR)%Q in
  let integR := clamp_integral (integralR m + errorR * dt)%Q (integralClamp m) in
  let derivativeR := ((errorR - prevErrorR m) / dt)%Q in
  let pidOutR := (KpR m * errorR + KiR m * integR + KdR m * derivativeR)%Q in
  let pwmLeft := round pidOutL in
  let pwmRight := round (pidOutR * RIGHT_MOTOR_COMPENSATION) in
  let pwmLeft := constrain pwmLeft (- MAX_SPEED) MAX_SPEED in
  let pwmRight := constrain pwmRight (- MAX_SPEED) MAX_SPEED in
  (mk true now (pidIntervalMs m)
      (targetPpsLeft m) (targetPpsRight m) appliedL appliedR
      (KpL m) (KiL m) (KdL m) integL errorL
      (KpR m) (KiR m) (KdR m) integR errorR
      (integralClamp m) (rampTimeMs m),
   setBothMotors pwmLeft pwmRight o).

(** What belongs to one wheel after an update: its regulator state and the
    two PWM inputs of its driver. *)
Definition left_view (r : t * Pwm.t) : Q * Q * Q * Z * Z :=
  (appliedPpsLeft (fst r), integralL (fst r), prevErrorL (fst r),
   left_rpwm (snd r), left_lpwm (snd r)).

Definition right_view (r : t * Pwm.t) : Q * Q * Q * Z * Z :=
  (appliedPpsRight (fst r), integralR (fst r), prevErrorR (fst r),
   right_rpwm (snd r), right_lpwm (snd r)).

End MotorDriver.

(** ** MotorDriver.cpp, AMR-main variant: one PID for both wheels
    (right-wheel compensation 1.1 applied to the PID output only) *)

Module MotorDriverMain.
Import Pwm.

Definition RIGHT_MOTOR_COMPENSATION : Q := 11 # 10.

Record t : Type := mk {
  velocityControlEnabled : bool;
  lastPIDMillis : Z;
  pidIntervalMs : Z;
  targetPps : Q;
  appliedPps : Q;
  Kp : Q; Ki : Q; Kd : Q;
  integral : Q;
  prevError : Q;
  integralClamp : Q;
  rampTimeMs : Z
}.

Definition initial : t :=
  mk false 0 50 0 0 (8 # 100) (2 # 100) (2 # 1000) 0 0 500 800.

Definition moveForward (speed : Z) (o : Pwm.t) : Pwm.t :=
  let speed := constrain speed MIN_SPEED MAX_SPEED in
  let o := analogWrite MOTOR_LEFT_RPWM 0 o in
  let o := analogWrite MOTOR_LEFT_LPWM speed o in
  let o := analogWrite MOTOR_RIGHT_RPWM 0 o in
  analogWrite MOTOR_RIGHT_LPWM speed o.

Definition setLeftMotor (speed : Z) (o : Pwm.t) : Pwm.t :=
  let speed := constrain speed (- MAX_SPEED) MAX_SPEED in
  if speed >? 0 then
    let speed := if speed <? MIN_SPEED then MIN_SPEED else speed in
    let o := analogWrite MOTOR_LEFT_RPWM 0 o in
    analogWrite MOTOR_LEFT_LPWM speed o
  else if speed <? 0 then
    let absSpeed := - speed in
    let absSpeed := if absSpeed <? MIN_SPEED then MIN_SPEED else absSpeed in
    let o := analogWrite MOTOR_LEFT_RPWM absSpeed o in
    analogWrite MOTOR_LEFT_LPWM 0 o
  else
    let o := analogWrite MOTOR_LEFT_RPWM 0 o in
    analogWrite MOTOR_LEFT_LPWM 0 o.

Definition setRightMotor (speed : Z) (o : Pwm.t) : Pwm.t :=
  let speed := constrain speed (- MAX_SPEED) MAX_SPEED in
  if speed >? 0 then
    let speed := if speed <? MIN_SPEED then MIN_SPEED else speed in
    let o := analogWrite MOTOR_RIGHT_RPWM 0 o in
    analogWrite MOTOR_RIGHT_LPWM speed o
  else if speed <? 0 then
    let absSpeed := - speed in
    let absSpeed := if absSpeed <? MIN_SPEED then MIN_SPEED else absSpeed in
    let o := analogWrite MOTOR_RIGHT_RPWM absSpeed o in
    analogWrite MOTOR_RIGHT_LPWM 0 o
  else
    let o := analogWrite MOTOR_RIGHT_RPWM 0 o in
    analogWrite MOTOR_RIGHT_LPWM 0 o.

Definition setBothMotors (leftSpeed rightSpeed : Z) (o : Pwm.t) : Pwm.t :=
  setRightMotor rightSpeed (setLeftMotor leftSpeed o).

Definition updateVelocityControl (now : Z)
    (leftDeltaPulses rightDeltaPulses dtMs : Z) (m : t) (o : Pwm.t) : t * Pwm.t :=
  if negb (velocityControlEnabled m) then (m, o) else
  if dtMs =? 0 then (m, o) else
  if wrap_ulong (now - lastPIDMillis m) <? pidIntervalMs m then (m, o) else
  let elapsed := wrap_ulong (now - lastPIDMillis m) in
  let dt := (inject_Z elapsed / 1000)%Q in
  let avgDeltaPulses := ((inject_Z leftDeltaPulses + inject_Z rightDeltaPulses) / 2)%Q in
  let measPps := (avgDeltaPulses / dt)%Q in
  let applied :=
    if rampTimeMs m >? 0 then
      let maxDelta := (Qabs (targetPps m) / inject_Z (rampTimeMs m) * inject_Z elapsed)%Q in
      MotorDriver.ramp_toward (appliedPps m) (targetPps m) maxDelta
    else targetPps m in
  let error := (applied - measPps)%Q in
  let integ := MotorDriver.clamp_integral (integral m + error * dt)%Q (integralClamp m) in
  let derivative := ((error - prevError m) / dt)%Q in
  let pidOutput := (Kp m * error + Ki m * integ + Kd m * derivative)%Q in
  let pwmBase := round pidOutput in
  let pwmBase := constrain pwmBase (- MAX_SPEED) MAX_SPEED in
  let pwmLeft := pwmBase in
  let pwmRight := round (inject_Z pwmBase * RIGHT_MOTOR_COMPENSATION) in
  let pwmRight := constrain pwmRight (- MAX_SPEED) MAX_SPEED in
  (mk true now (pidIntervalMs m) (targetPps m) applied
      (Kp m) (Ki m) (Kd m) integ error (integralClamp m) (rampTimeMs m),
   setBothMotors pwmLeft pwmRight o).

(** The left wheel's share of an update in this variant: the single
    regulator's state and the left driver's PWM inputs. *)
Definition left_view (r : t * Pwm.t) : Q * Q * Q * Z * Z :=
  (appliedPps (fst r), integral (fst r), prevError (fst r),
   left_rpwm (snd r), left_lpwm (snd r)).

End MotorDriverMain.

(** ** Angle normalisation loops

    The sources normalise an angle with the pair of loops
    [while (a > half) a -= 2*half;  while (a < -half) a += 2*half;]
    ([half] is [PI] in Odometry.cpp and [180] in the sketch).  Each loop is
    a fuelled recursion; [loop_bound] is an iteration count that always
    suffices for a positive [half]. *)

Fixpoint while_above (fuel : nat) (half a : Q) : Q :=
  match fuel with
  | O => a
  | S fuel' => if fgt a half then while_above fuel' half (a - 2 * half)%Q else a
  end.

Fixpoint while_below (fuel : nat) (half a : Q) : Q :=
  match fuel with
  | O => a
  | S fuel' => if flt a (- half) then while_below fuel' half (a + 2 * half)%Q else a
  end.

Definition loop_bound (half a : Q) : nat :=
  S (Z.to_nat (Qceiling (Qabs a / (2 * half)))).

Definition normalize_loops (half a : Q) : Q :=
  let a := while_above (loop_bound half a) half a in
  while_below (loop_bound half a) half a.

(** ** Odometry.h / Odometry.cpp *)

Module Odometry.

Definition WHEEL_BASE_CM : Q := 635 # 10.
Definition DIST_EPS_CM : Q := 1 # 1000.

Record t : Type := mk {
  x : Q;
  y : Q;
  theta : Q;
  lastLeftPulses : Z;
  lastRightPulses : Z
}.

Definition radiansToDegrees (radians : Q) : Q := (radians * 180 / PI)%Q.

Definition getX (o : t) : Q := x o.
Definition getY (o : t) : Q := y o.
Definition getThetaDegrees (o : t) : Q := radiansToDegrees (theta o).


Section WithTrigonometry.

Variables cos sin : Q -> Q.

(** [update()]; [currentLeftPulses] and [currentRightPulses] are the two
    values returned by [encoder->readLeft()] and [encoder->readRight()],
    and [e] provides the calibration used by [pulsesToCentimeters]. *)
Definition update (e : Encoder.t) (currentLeftPulses currentRightPulses : Z) (o : t) : t :=
  let deltaLeftPulses := wrap_long (currentLeftPulses - lastLeftPulses o) in
  let deltaRightPulses := wrap_long (currentRightPulses - lastRightPulses o) in
  let deltaLeftCm := Encoder.pulsesToCentimeters e deltaLeftPulses in
  let deltaRightCm := Encoder.pulsesToCentimeters e deltaRightPulses in
  let deltaDistance := ((deltaLeftCm + deltaRightCm) / 2)%Q in
  let deltaTheta := ((deltaRightCm - deltaLeftCm) / WHEEL_BASE_CM)%Q in
  let prevTheta := theta o in
  let newTheta := normalize_loops PI (theta o + deltaTheta)%Q in
  let xy :=
    if fgt (Qabs deltaDistance) DIST_EPS_CM then
      let midTheta := normalize_loops PI (prevTheta + deltaTheta * (1 # 2))%Q in
      ((x o + deltaDistance * cos midTheta)%Q, (y o + deltaDistance * sin midTheta)%Q)
    else (x o, y o) in
  mk (fst xy) (snd xy) newTheta currentLeftPulses currentRightPulses.

End WithTrigonometry.

(** The quantities [update()] derives from the two wheel readings. *)
Definition wheel_cm (e : Encoder.t) (current last : Z) : Q :=
  Encoder.pulsesToCentimeters e (wrap_long (current - last)).


Definition delta_heading (e : Encoder.t) (l r : Z) (o : t) : Q :=
  ((wheel_cm e r (lastRightPulses o) - wheel_cm e l (lastLeftPulses o)) / WHEEL_BASE_CM)%Q.

End Odometry.

(** ** AMR_Complete.ino: route execution, wall-following and auto-turn state *)

Inductive RouteState : Type :=
| ROUTE_IDLE
| ROUTE_WAITING
| ROUTE_TURNING
| ROUTE_MOVING
| ROUTE_DONE.

Definition RouteState_eqb (a b : RouteState) : bool :=
  match a, b with
  | ROUTE_IDLE, ROUTE_IDLE
  | ROUTE_WAITING, ROUTE_WAITING
  | ROUTE_TURNING, ROUTE_TURNING
  | ROUTE_MOVING, ROUTE_MOVING
  | ROUTE_DONE, ROUTE_DONE => true
  | _, _ => false
  end.

Record Point : Type := mkPoint { px : Q; py : Q }.

Module RouteExecution.

Record t : Type := mk {
  active : bool;
  routeIndex : Z;
  direction : Z;
  requestMillis : Z;
  delayMs : Z;
  currentPoint : Z;
  state : RouteState;
  awaitingConfirm : bool;
  waitingForReturnConfirm : bool;
  returnModeActive : bool;
  postFinishTurn : bool;
  obstacleActive : bool;
  obstacleSide : Z;
  obstacleState : Z;
  obstacleMoveStartLeft : Z;
  obstacleMoveStartRight : Z;
  obstacleMoveTargetPulses : Z;
  obstacleMoveMaxPulses : Z;
  obstacleProbePin : Z;
  obstacleWaitActive : bool;
  obstacleWaitStartMillis : Z;
  moveStartLeft : Z;
  moveStartRight : Z;
  moveTargetPulses : Z;
  targetX : Q;
  targetY : Q
}.

Definition set_active (v : bool) (r : t) : t :=
  mk v (routeIndex r) (direction r) (requestMillis r) (delayMs r)
    (currentPoint r) (state r) (awaitingConfirm r) (waitingForReturnConfirm r)
    (returnModeActive r) (postFinishTurn r) (obstacleActive r)
    (obstacleSide r) (obstacleState r) (obstacleMoveStartLeft r)
    (obstacleMoveStartRight r) (obstacleMoveTargetPulses r)
    (obstacleMoveMaxPulses r) (obstacleProbePin r) (obstacleWaitActive r)
    (obstacleWaitStartMillis r) (moveStartLeft r) (moveStartRight r)
    (moveTargetPulses r) (targetX r) (targetY r).

Definition set_routeIndex (v : Z) (r : t) : t :=
  mk (active r) v (direction r) (requestMillis r) (delayMs r) (currentPoint r)
    (state r) (awaitingConfirm r) (waitingForReturnConfirm r)
    (returnModeActive r) (postFinishTurn r) (obstacleActive r)
    (obstacleSide r) (obstacleState r) (obstacleMoveStartLeft r)
    (obstacleMoveStartRight r) (obstacleMoveTargetPulses r)
    (obstacleMoveMaxPulses r) (obstacleProbePin r) (obstacleWaitActive r)
    (obstacleWaitStartMillis r) (moveStartLeft r) (moveStartRight r)
    (moveTargetPulses r) (targetX r) (targetY r).

Definition set_direction (v : Z) (r : t) : t :=
  mk (active r) (routeIndex r) v (requestMillis r) (delayMs r)
    (currentPoint r) (state r) (awaitingConfirm r) (waitingForReturnConfirm r)
    (returnModeActive r) (postFinishTurn r) (obstacleActive r)
    (obstacleSide r) (obstacleState r) (obstacleMoveStartLeft r)
    (obstacleMoveStartRight r) (obstacleMoveTargetPulses r)
    (obstacleMoveMaxPulses r) (obstacleProbePin r) (obstacleWaitActive r)
    (obstacleWaitStartMillis r) (moveStartLeft r) (moveStartRight r)
    (moveTargetPulses r) (targetX r) (targetY r).

Definition set_requestMillis (v : Z) (r : t) : t :=
  mk (active r) (routeIndex r) (direction r) v (delayMs r) (currentPoint r)
    (state r) (awaitingConfirm r) (waitingForReturnConfirm r)
    (returnModeActive r) (postFinishTurn r) (obstacleActive r)
    (obstacleSide r) (obstacleState r) (obstacleMoveStartLeft r)
    (obstacleMoveStartRight r) (obstacleMoveTargetPulses r)
    (obstacleMoveMaxPulses r) (obstacleProbePin r) (obstacleWaitActive r)
    (obstacleWaitStartMillis r) (moveStartLeft r) (moveStartRight r)
    (moveTargetPulses r) (targetX r) (targetY r).

Definition set_delayMs (v : Z) (r : t) : t :=
  mk (active r) (routeIndex r) (direction r) (requestMillis r) v
    (currentPoint r) (state r) (awaitingConfirm r) (waitingForReturnConfirm r)
    (returnModeActive r) (postFinishTurn r) (obstacleActive r)
    (obstacleSide r) (obstacleState r) (obstacleMoveStartLeft r)
    (obstacleMoveStartRight r) (obstacleMoveTargetPulses r)
    (obstacleMoveMaxPulses r) (obstacleProbePin r) (obstacleWaitActive r)
    (obstacleWaitStartMillis r) (moveStartLeft r) (moveStartRight r)
    (moveTargetPulses r) (targetX r) (targetY r).

Definition set_currentPoint (v : Z) (r : t) : t :=
  mk (active r) (routeIndex r) (direction r) (requestMillis r) (delayMs r) v
    (state r) (awaitingConfirm r) (waitingForReturnConfirm r)
    (returnModeActive r) (postFinishTurn r) (obstacleActive r)
    (obstacleSide r) (obstacleState r) (obstacleMoveStartLeft r)
    (obstacleMoveStartRight r) (obstacleMoveTargetPulses r)
    (obstacleMoveMaxPulses r) (obstacleProbePin r) (obstacleWaitActive r)
    (obstacleWaitStartMillis r) (moveStartLeft r) (moveStartRight r)
    (moveTargetPulses r) (targetX r) (targetY r).

Definition set_state (v : RouteState) (r : t) : t :=
  mk (active r) (routeIndex r) (direction r) (requestMillis r) (delayMs r)
    (currentPoint r) v (awaitingConfirm r) (waitingForReturnConfirm r)
    (returnModeActive r) (postFinishTurn r) (obstacleActive r)
    (obstacleSide r) (obstacleState r) (obstacleMoveStartLeft r)
    (obstacleMoveStartRight r) (obstacleMoveTargetPulses r)
    (obstacleMoveMaxPulses r) (obstacleProbePin r) (obstacleWaitActive r)
    (obstacleWaitStartMillis r) (moveStartLeft r) (moveStartRight r)
    (moveTargetPulses r) (targetX r) (targetY r).

Definition set_awaitingConfirm (v : bool) (r : t) : t :=
  mk (active r) (routeIndex r) (direction r) (requestMillis r) (delayMs r)
    (currentPoint r) (state r) v (waitingForReturnConfirm r)
    (returnModeActive r) (postFinishTurn r) (obstacleActive r)
    (obstacleSide r) (obstacleState r) (obstacleMoveStartLeft r)
    (obstacleMoveStartRight r) (obstacleMoveTargetPulses r)
    (obstacleMoveMaxPulses r) (obstacleProbePin r) (obstacleWaitActive r)
    (obstacleWaitStartMillis r) (moveStartLeft r) (moveStartRight r)
    (moveTargetPulses r) (targetX r) (targetY r).

Definition set_waitingForReturnConfirm (v : bool) (r : t) : t :=
  mk (active r) (routeIndex r) (direction r) (requestMillis r) (delayMs r)
    (currentPoint r) (state r) (awaitingConfirm r) v (returnModeActive r)
    (postFinishTurn r) (obstacleActive r) (obstacleSide r) (obstacleState r)
    (obstacleMoveStartLeft r) (obstacleMoveStartRight r)
    (obstacleMoveTargetPulses r) (obstacleMoveMaxPulses r)
    (obstacleProbePin r) (obstacleWaitActive r) (obstacleWaitStartMillis r)
    (moveStartLeft r) (moveStartRight r) (moveTargetPulses r) (targetX r)
    (targetY r).

Definition set_returnModeActive (v : bool) (r : t) : t :=
  mk (active r) (routeIndex r) (direction r) (requestMillis r) (delayMs r)
    (currentPoint r) (state r) (awaitingConfirm r) (waitingForReturnConfirm r)
    v (postFinishTurn r) (obstacleActive r) (obstacleSide r) (obstacleState r)
    (obstacleMoveStartLeft r) (obstacleMoveStartRight r)
    (obstacleMoveTargetPulses r) (obstacleMoveMaxPulses r)
    (obstacleProbePin r) (obstacleWaitActive r) (obstacleWaitStartMillis r)
    (moveStartLeft r) (moveStartRight r) (moveTargetPulses r) (targetX r)
    (targetY r).

Definition set_postFinishTurn (v : bool) (r : t) : t :=
  mk (active r) (routeIndex r) (direction r) (requestMillis r) (delayMs r)
    (currentPoint r) (state r) (awaitingConfirm r) (waitingForReturnConfirm r)
    (returnModeActive r) v (obstacleActive r) (obstacleSide r)
    (obstacleState r) (obstacleMoveStartLeft r) (obstacleMoveStartRight r)
    (obstacleMoveTargetPulses r) (obstacleMoveMaxPulses r)
    (obstacleProbePin r) (obstacleWaitActive r) (obstacleWaitStartMillis r)
    (moveStartLeft r) (moveStartRight r) (moveTargetPulses r) (targetX r)
    (targetY r).

Definition set_obstacleActive (v : bool) (r : t) : t :=
  mk (active r) (routeIndex r) (direction r) (requestMillis r) (delayMs r)
    (currentPoint r) (state r) (awaitingConfirm r) (waitingForReturnConfirm r)
    (returnModeActive r) (postFinishTurn r) v (obstacleSide r)
    (obstacleState r) (obstacleMoveStartLeft r) (obstacleMoveStartRight r)
    (obstacleMoveTargetPulses r) (obstacleMoveMaxPulses r)
    (obstacleProbePin r) (obstacleWaitActive r) (obstacleWaitStartMillis r)
    (moveStartLeft r) (moveStartRight r) (moveTargetPulses r) (targetX r)
    (targetY r).

Definition set_obstacleSide (v : Z) (r : t) : t :=
  mk (active r) (routeIndex r) (direction r) (requestMillis r) (delayMs r)
    (currentPoint r) (state r) (awaitingConfirm r) (waitingForReturnConfirm r)
    (returnModeActive r) (postFinishTurn r) (obstacleActive r) v
    (obstacleState r) (obstacleMoveStartLeft r) (obstacleMoveStartRight r)
    (obstacleMoveTargetPulses r) (obstacleMoveMaxPulses r)
    (obstacleProbePin r) (obstacleWaitActive r) (obstacleWaitStartMillis r)
    (moveStartLeft r) (moveStartRight r) (moveTargetPulses r) (targetX r)
    (targetY r).

Definition set_obstacleState (v : Z) (r : t) : t :=
  mk (active r) (routeIndex r) (direction r) (requestMillis r) (delayMs r)
    (currentPoint r) (state r) (awaitingConfirm r) (waitingForReturnConfirm r)
    (returnModeActive r) (postFinishTurn r) (obstacleActive r)
    (obstacleSide r) v (obstacleMoveStartLeft r) (obstacleMoveStartRight r)
    (obstacleMoveTargetPulses r) (obstacleMoveMaxPulses r)
    (obstacleProbePin r) (obstacleWaitActive r) (obstacleWaitStartMillis r)
    (moveStartLeft r) (moveStartRight r) (moveTargetPulses r) (targetX r)
    (targetY r).

Definition set_obstacleMoveStartLeft (v : Z) (r : t) : t :=
  mk (active r) (routeIndex r) (direction r) (requestMillis r) (delayMs r)
    (currentPoint r) (state r) (awaitingConfirm r) (waitingForReturnConfirm r)
    (returnModeActive r) (postFinishTurn r) (obstacleActive r)
    (obstacleSide r) (obstacleState r) v (obstacleMoveStartRight r)
    (obstacleMoveTargetPulses r) (obstacleMoveMaxPulses r)
    (obstacleProbePin r) (obstacleWaitActive r) (obstacleWaitStartMillis r)
    (moveStartLeft r) (moveStartRight r) (moveTargetPulses r) (targetX r)
    (targetY r).

Definition set_obstacleMoveStartRight (v : Z) (r : t) : t :=
  mk (active r) (routeIndex r) (direction r) (requestMillis r) (delayMs r)
    (currentPoint r) (state r) (awaitingConfirm r) (waitingForReturnConfirm r)
    (returnModeActive r) (postFinishTurn r) (obstacleActive r)
    (obstacleSide r) (obstacleState r) (obstacleMoveStartLeft r) v
    (obstacleMoveTargetPulses r) (obstacleMoveMaxPulses r)
    (obstacleProbePin r) (obstacleWaitActive r) (obstacleWaitStartMillis r)
    (moveStartLeft r) (moveStartRight r) (moveTargetPulses r) (targetX r)
    (targetY r).

Definition set_obstacleMoveTargetPulses (v : Z) (r : t) : t :=
  mk (active r) (routeIndex r) (direction r) (requestMillis r) (delayMs r)
    (currentPoint r) (state r) (awaitingConfirm r) (waitingForReturnConfirm r)
    (returnModeActive r) (postFinishTurn r) (obstacleActive r)
    (obstacleSide r) (obstacleState r) (obstacleMoveStartLeft r)
    (obstacleMoveStartRight r) v (obstacleMoveMaxPulses r)
    (obstacleProbePin r) (obstacleWaitActive r) (obstacleWaitStartMillis r)
    (moveStartLeft r) (moveStartRight r) (moveTargetPulses r) (targetX r)
    (targetY r).

Definition set_obstacleMoveMaxPulses (v : Z) (r : t) : t :=
  mk (active r) (routeIndex r) (direction r) (requestMillis r) (delayMs r)
    (currentPoint r) (state r) (awaitingConfirm r) (waitingForReturnConfirm r)
    (returnModeActive r) (postFinishTurn r) (obstacleActive r)
    (obstacleSide r) (obstacleState r) (obstacleMoveStartLeft r)
    (obstacleMoveStartRight r) (obstacleMoveTargetPulses r) v
    (obstacleProbePin r) (obstacleWaitActive r) (obstacleWaitStartMillis r)
    (moveStartLeft r) (moveStartRight r) (moveTargetPulses r) (targetX r)
    (targetY r).

Definition set_obstacleProbePin (v : Z) (r : t) : t :=
  mk (active r) (routeIndex r) (direction r) (requestMillis r) (delayMs r)
    (currentPoint r) (state r) (awaitingConfirm r) (waitingForReturnConfirm r)
    (returnModeActive r) (postFinishTurn r) (obstacleActive r)
    (obstacleSide r) (obstacleState r) (obstacleMoveStartLeft r)
    (obstacleMoveStartRight r) (obstacleMoveTargetPulses r)
    (obstacleMoveMaxPulses r) v (obstacleWaitActive r)
    (obstacleWaitStartMillis r) (moveStartLeft r) (moveStartRight r)
    (moveTargetPulses r) (targetX r) (targetY r).

Definition set_obstacleWaitActive (v : bool) (r : t) : t :=
  mk (active r) (routeIndex r) (direction r) (requestMillis r) (delayMs r)
    (currentPoint r) (state r) (awaitingConfirm r) (waitingForReturnConfirm r)
    (returnModeActive r) (postFinishTurn r) (obstacleActive r)
    (obstacleSide r) (obstacleState r) (obstacleMoveStartLeft r)
    (obstacleMoveStartRight r) (obstacleMoveTargetPulses r)
    (obstacleMoveMaxPulses r) (obstacleProbePin r) v
    (obstacleWaitStartMillis r) (moveStartLeft r) (moveStartRight r)
    (moveTargetPulses r) (targetX r) (targetY r).

Definition set_obstacleWaitStartMillis (v : Z) (r : t) : t :=
  mk (active r) (routeIndex r) (direction r) (requestMillis r) (delayMs r)
    (currentPoint r) (state r) (awaitingConfirm r) (waitingForReturnConfirm r)
    (returnModeActive r) (postFinishTurn r) (obstacleActive r)
    (obstacleSide r) (obstacleState r) (obstacleMoveStartLeft r)
    (obstacleMoveStartRight r) (obstacleMoveTargetPulses r)
    (obstacleMoveMaxPulses r) (obstacleProbePin r) (obstacleWaitActive r) v
    (moveStartLeft r) (moveStartRight r) (moveTargetPulses r) (targetX r)
    (targetY r).

Definition set_moveStartLeft (v : Z) (r : t) : t :=
  mk (active r) (routeIndex r) (direction r) (requestMillis r) (delayMs r)
    (currentPoint r) (state r) (awaitingConfirm r) (waitingForReturnConfirm r)
    (returnModeActive r) (postFinishTurn r) (obstacleActive r)
    (obstacleSide r) (obstacleState r) (obstacleMoveStartLeft r)
    (obstacleMoveStartRight r) (obstacleMoveTargetPulses r)
    (obstacleMoveMaxPulses r) (obstacleProbePin r) (obstacleWaitActive r)
    (obstacleWaitStartMillis r) v (moveStartRight r) (moveTargetPulses r)
    (targetX r) (targetY r).

Definition set_moveStartRight (v : Z) (r : t) : t :=
  mk (active r) (routeIndex r) (direction r) (requestMillis r) (delayMs r)
    (currentPoint r) (state r) (awaitingConfirm r) (waitingForReturnConfirm r)
    (returnModeActive r) (postFinishTurn r) (obstacleActive r)
    (obstacleSide r) (obstacleState r) (obstacleMoveStartLeft r)
    (obstacleMoveStartRight r) (obstacleMoveTargetPulses r)
    (obstacleMoveMaxPulses r) (obstacleProbePin r) (obstacleWaitActive r)
    (obstacleWaitStartMillis r) (moveStartLeft r) v (moveTargetPulses r)
    (targetX r) (targetY r).

Definition set_moveTargetPulses (v : Z) (r : t) : t :=
  mk (active r) (routeIndex r) (direction r) (requestMillis r) (delayMs r)
    (currentPoint r) (state r) (awaitingConfirm r) (waitingForReturnConfirm r)
    (returnModeActive r) (postFinishTurn r) (obstacleActive r)
    (obstacleSide r) (obstacleState r) (obstacleMoveStartLeft r)
    (obstacleMoveStartRight r) (obstacleMoveTargetPulses r)
    (obstacleMoveMaxPulses r) (obstacleProbePin r) (obstacleWaitActive r)
    (obstacleWaitStartMillis r) (moveStartLeft r) (moveStartRight r) v
    (targetX r) (targetY r).

Definition set_targetX (v : Q) (r : t) : t :=
  mk (active r) (routeIndex r) (direction r) (requestMillis r) (delayMs r)
    (currentPoint r) (state r) (awaitingConfirm r) (waitingForReturnConfirm r)
    (returnModeActive r) (postFinishTurn r) (obstacleActive r)
    (obstacleSide r) (obstacleState r) (obstacleMoveStartLeft r)
    (obstacleMoveStartRight r) (obstacleMoveTargetPulses r)
    (obstacleMoveMaxPulses r) (obstacleProbePin r) (obstacleWaitActive r)
    (obstacleWaitStartMillis r) (moveStartLeft r) (moveStartRight r)
    (moveTargetPulses r) v (targetY r).

Definition set_targetY (v : Q) (r : t) : t :=
  mk (active r) (routeIndex r) (direction r) (requestMillis r) (delayMs r)
    (currentPoint r) (state r) (awaitingConfirm r) (waitingForReturnConfirm r)
    (returnModeActive r) (postFinishTurn r) (obstacleActive r)
    (obstacleSide r) (obstacleState r) (obstacleMoveStartLeft r)
    (obstacleMoveStartRight r) (obstacleMoveTargetPulses r)
    (obstacleMoveMaxPulses r) (obstacleProbePin r) (obstacleWaitActive r)
    (obstacleWaitStartMillis r) (moveStartLeft r) (moveStartRight r)
    (moveTargetPulses r) (targetX r) v.

End RouteExecution.

Module WallFollow.

Record t : Type := mk {
  active : bool;
  side : Z;
  state : Z;
  allWallsDetectedStart : Z;
  routeResumePending : bool;
  resumeAction : Z
}.

Definition set_active (v : bool) (r : t) : t :=
  mk v (side r) (state r) (allWallsDetectedStart r) (routeResumePending r)
    (resumeAction r).

Definition set_side (v : Z) (r : t) : t :=
  mk (active r) v (state r) (allWallsDetectedStart r) (routeResumePending r)
    (resumeAction r).

Definition set_state (v : Z) (r : t) : t :=
  mk (active r) (side r) v (allWallsDetectedStart r) (routeResumePending r)
    (resumeAction r).

Definition set_allWallsDetectedStart (v : Z) (r : t) : t :=
  mk (active r) (side r) (state r) v (routeResumePending r) (resumeAction r).

Definition set_routeResumePending (v : bool) (r : t) : t :=
  mk (active r) (side r) (state r) (allWallsDetectedStart r) v
    (resumeAction r).

Definition set_resumeAction (v : Z) (r : t) : t :=
  mk (active r) (side r) (state r) (allWallsDetectedStart r)
    (routeResumePending r) v.

End WallFollow.

(** Members of both structs as initialised in the sketch. *)
Definition routeExec_initial : RouteExecution.t :=
  RouteExecution.mk false 0 1 0 0 0 ROUTE_IDLE false false false false
    false 0 0 0 0 0 0 (-1) false 0 0 0 0 0 0.

Definition wallFollow_initial : WallFollow.t :=
  WallFollow.mk false 0 0 0 false 0.

(** What the sketch does to the outside world: calls into the motor driver
    and the serial lines the properties below speak about (the remaining
    diagnostic prints are left out): the turn handler's "OK" / "Timeout" and
    the line that announces a waypoint with its index and coordinates.  The
    newest effect is the head. *)
Inductive Effect : Type :=
| MotorsStop
| MotorsMoveForward (speed : Z)
| MotorsSetBoth (leftSpeed rightSpeed : Z)
| Println (line : string)
| WaypointLine (pIndex : Z) (target : Point).

Record World : Type := mkWorld {
  routeExec : RouteExecution.t;
  wallFollow : WallFollow.t;
  turningInProgress : bool;
  targetAngle : Q;
  turnStartTime : Z;
  turnStartLeft0 : Z;
  turnStartRight0 : Z;
  turnTargetPulses : Z;
  odometry : Odometry.t;
  pulsesPerRevolution : Z;
  clock : Z;
  trace : list Effect
}.

Definition set_routeExec (v : RouteExecution.t) (r : World) : World :=
  mkWorld v (wallFollow r) (turningInProgress r) (targetAngle r)
    (turnStartTime r) (turnStartLeft0 r) (turnStartRight0 r)
    (turnTargetPulses r) (odometry r) (pulsesPerRevolution r) (clock r)
    (trace r).

Definition set_wallFollow (v : WallFollow.t) (r : World) : World :=
  mkWorld (routeExec r) v (turningInProgress r) (targetAngle r)
    (turnStartTime r) (turnStartLeft0 r) (turnStartRight0 r)
    (turnTargetPulses r) (odometry r) (pulsesPerRevolution r) (clock r)
    (trace r).

Definition set_turningInProgress (v : bool) (r : World) : World :=
  mkWorld (routeExec r) (wallFollow r) v (targetAngle r) (turnStartTime r)
    (turnStartLeft0 r) (turnStartRight0 r) (turnTargetPulses r) (odometry r)
    (pulsesPerRevolution r) (clock r) (trace r).

Definition set_targetAngle (v : Q) (r : World) : World :=
  mkWorld (routeExec r) (wallFollow r) (turningInProgress r) v
    (turnStartTime r) (turnStartLeft0 r) (turnStartRight0 r)
    (turnTargetPulses r) (odometry r) (pulsesPerRevolution r) (clock r)
    (trace r).

Definition set_turnStartTime (v : Z) (r : World) : World :=
  mkWorld (routeExec r) (wallFollow r) (turningInProgress r) (targetAngle r) v
    (turnStartLeft0 r) (turnStartRight0 r) (turnTargetPulses r) (odometry r)
    (pulsesPerRevolution r) (clock r) (trace r).

Definition set_turnStartLeft0 (v : Z) (r : World) : World :=
  mkWorld (routeExec r) (wallFollow r) (turningInProgress r) (targetAngle r)
    (turnStartTime r) v (turnStartRight0 r) (turnTargetPulses r) (odometry r)
    (pulsesPerRevolution r) (clock r) (trace r).

Definition set_turnStartRight0 (v : Z) (r : World) : World :=
  mkWorld (routeExec r) (wallFollow r) (turningInProgress r) (targetAngle r)
    (turnStartTime r) (turnStartLeft0 r) v (turnTargetPulses r) (odometry r)
    (pulsesPerRevolution r) (clock r) (trace r).

Definition set_turnTargetPulses (v : Z) (r : World) : World :=
  mkWorld (routeExec r) (wallFollow r) (turningInProgress r) (targetAngle r)
    (turnStartTime r) (turnStartLeft0 r) (turnStartRight0 r) v (odometry r)
    (pulsesPerRevolution r) (clock r) (trace r).

Definition set_odometry (v : Odometry.t) (r : World) : World :=
  mkWorld (routeExec r) (wallFollow r) (turningInProgress r) (targetAngle r)
    (turnStartTime r) (turnStartLeft0 r) (turnStartRight0 r)
    (turnTargetPulses r) v (pulsesPerRevolution r) (clock r) (trace r).

Definition set_pulsesPerRevolution (v : Z) (r : World) : World :=
  mkWorld (routeExec r) (wallFollow r) (turningInProgress r) (targetAngle r)
    (turnStartTime r) (turnStartLeft0 r) (turnStartRight0 r)
    (turnTargetPulses r) (odometry r) v (clock r) (trace r).

Definition set_clock (v : Z) (r : World) : World :=
  mkWorld (routeExec r) (wallFollow r) (turningInProgress r) (targetAngle r)
    (turnStartTime r) (turnStartLeft0 r) (turnStartRight0 r)
    (turnTargetPulses r) (odometry r) (pulsesPerRevolution r) v (trace r).

Definition set_trace (v : list Effect) (r : World) : World :=
  mkWorld (routeExec r) (wallFollow r) (turningInProgress r) (targetAngle r)
    (turnStartTime r) (turnStartLeft0 r) (turnStartRight0 r)
    (turnTargetPulses r) (odometry r) (pulsesPerRevolution r) (clock r) v.

(** Analog pins of the IR sensors and the avoidance / turn parameters. *)
Definition IR_LEFT_SIDE_PIN : Z := 19.
Definition IR_FRONT_LEFT_PIN : Z := 18.
Definition IR_BACK_CENTER_PIN : Z := 16.
Definition IR_FRONT_RIGHT_PIN : Z := 15.
Definition IR_RIGHT_SIDE_PIN : Z := 14.

Definition OBSTACLE_THRESHOLD_CM : Q := 30.
Definition AVOID_STEP_CM : Q := 30.
Definition AVOID_CLEAR_MARGIN_CM : Q := 8.
Definition AVOID_MAX_STEP_CM : Q := 200.
Definition OBSTACLE_DETECTION_DELAY_MS : Z := 2000.
Definition MAX_TURN_TIME : Z := 4000.

Definition on_route (f : RouteExecution.t -> RouteExecution.t) (w : World) : World :=
  set_routeExec (f (routeExec w)) w.

Definition on_wall (f : WallFollow.t -> WallFollow.t) (w : World) : World :=
  set_wallFollow (f (wallFollow w)) w.

Definition emit (e : Effect) (w : World) : World := set_trace (e :: trace w) w.

Definition millis (w : World) : Z := wrap_ulong (clock w).

Definition delay (ms : Z) (w : World) : World := set_clock (clock w + ms) w.

(** [(long)(pulsesF + 0.5f)] for a travel of [cm] centimetres. *)
Definition pulses_for_cm (cm : Q) (w : World) : Z :=
  let pulsesF :=
    (cm / Encoder.WHEEL_CIRCUMFERENCE_CM * inject_Z (pulsesPerRevolution w))%Q in
  long_of_float (pulsesF + (1 # 2)).

Section Sketch.

(** The route table, the encoder counts and calibrated distances over time,
    and the two libm functions of the sketch. *)
Variable routesPoints : list (list Point).
Variables encLeft encRight : Z -> Z.
Variable distancia : Z -> Z -> Q.
Variable atan2f : Q -> Q -> Q.
Variable sqrtf : Q -> Q.

Definition ROUTE_COUNT : Z := Z.of_nat (length routesPoints).

Definition routesCounts (idx : Z) : Z :=
  Z.of_nat (length (nth (Z.to_nat idx) routesPoints [])).

Definition routePoint (idx pIndex : Z) : Point :=
  nth (Z.to_nat pIndex) (nth (Z.to_nat idx) routesPoints []) (mkPoint 0 0).

Definition readLeft (w : World) : Z := encLeft (clock w).
Definition readRight (w : World) : Z := encRight (clock w).

(** [distanciaSamples(pin, n, NULL)]: [n] raw samples 5 ms apart, averaged
    and calibrated; the result is the environment's distance for the pin. *)
Definition distanciaSamples (pin n : Z) (w : World) : Q * World :=
  (distancia pin (clock w), delay (5 * n) w).

Definition stopRouteExecution (w : World) : World :=
  if negb (RouteExecution.active (routeExec w)) then w else
  let w := on_route (RouteExecution.set_active false) w in
  let w := on_route (RouteExecution.set_state ROUTE_IDLE) w in
  emit MotorsStop w.

Definition stopWallFollowing (w : World) : World :=
  if negb (WallFollow.active (wallFollow w)) then w else
  let w := on_wall (WallFollow.set_active false) w in
  let w := on_wall (WallFollow.set_state 0) w in
  emit MotorsStop w.

Definition startWallFollowing (side : Z) (w : World) : World :=
  let w := if WallFollow.active (wallFollow w) then stopWallFollowing w else w in
  let w := if RouteExecution.active (routeExec w) then stopRouteExecution w else w in
  let w := on_wall (WallFollow.set_active true) w in
  let w := on_wall (WallFollow.set_side side) w in
  let w := on_wall (WallFollow.set_state 1) w in
  let w := on_wall (WallFollow.set_allWallsDetectedStart 0) w in
  let w := on_wall (WallFollow.set_routeResumePending false) w in
  on_wall (WallFollow.set_resumeAction 0) w.

Definition normalizeAngle (a : Q) : Q := normalize_loops 180 a.

(** The float expression of [startAutoTurn] for the per-wheel pulse count. *)
Definition turn_pulsesF (angleDelta : Q) (ppr : Z) : Q :=
  ((Qabs angleDelta * inject_Z ppr * Encoder.WHEEL_BASE_CM)
   / (360 * Encoder.WHEEL_DIAMETER_CM))%Q.

Definition startAutoTurn (angleDelta : Q) (w : World) : World :=
  let w := set_turningInProgress true w in
  let w := set_targetAngle
             (normalize_loops 180 (Odometry.getThetaDegrees (odometry w) + angleDelta)%Q) w in
  let pulsesF := turn_pulsesF angleDelta (pulsesPerRevolution w) in
  let w := set_turnTargetPulses (long_of_float (pulsesF + (1 # 2))) w in
  let w := set_turnStartLeft0 (readLeft w) w in
  let w := set_turnStartRight0 (readRight w) w in
  let w := set_turnStartTime (millis w) w in
  if fgt angleDelta 0
  then emit (MotorsSetBoth Pwm.TURN_SPEED (- Pwm.TURN_SPEED)) w
  else emit (MotorsSetBoth (- Pwm.TURN_SPEED) Pwm.TURN_SPEED) w.

(** [max(|dl|, |dr|)] since the snapshot [(l0, r0)], as the sketch computes
    it with [abs] / [labs] on [long]. *)
Definition max_moved (l0 r0 : Z) (w : World) : Z :=
  let dl := labs (wrap_long (readLeft w - l0)) in
  let dr := labs (wrap_long (readRight w - r0)) in
  if dl >? dr then dl else dr.

Definition handleAutoTurn (w : World) : World :=
  if negb (turningInProgress w) then w else
  let maxMoved := max_moved (turnStartLeft0 w) (turnStartRight0 w) w in
  if maxMoved >=? turnTargetPulses w then
    let w := emit MotorsStop w in
    let w := set_turningInProgress false w in
    let w := emit (Println "OK") w in
    if RouteExecution.postFinishTurn (routeExec w) then
      let w := on_route (RouteExecution.set_postFinishTurn false) w in
      if negb (RouteExecution.returnModeActive (routeExec w)) then
        let w := on_route (RouteExecution.set_awaitingConfirm true) w in
        let w := on_route (RouteExecution.set_waitingForReturnConfirm true) w in
        on_route (RouteExecution.set_state ROUTE_WAITING) w
      else
        let w := on_route (RouteExecution.set_active false) w in
        on_route (RouteExecution.set_state ROUTE_DONE) w
    else w
  else if RouteExecution.obstacleActive (routeExec w) then
    if RouteExecution.obstacleState (routeExec w) =? 1 then
      let w := on_route (RouteExecution.set_obstacleState 2) w in
      let w := on_route (RouteExecution.set_obstacleMoveTargetPulses
                           (pulses_for_cm AVOID_STEP_CM w)) w in
      let w := on_route (RouteExecution.set_obstacleMoveStartLeft (readLeft w)) w in
      let w := on_route (RouteExecution.set_obstacleMoveStartRight (readRight w)) w in
      emit (MotorsMoveForward Pwm.DEFAULT_SPEED) w
    else if RouteExecution.obstacleState (routeExec w) =? 3 then
      let w := on_route (RouteExecution.set_obstacleState 4) w in
      let w := on_route (RouteExecution.set_obstacleMoveTargetPulses
                           (pulses_for_cm AVOID_STEP_CM w)) w in
      let w := on_route (RouteExecution.set_obstacleMoveStartLeft (readLeft w)) w in
      let w := on_route (RouteExecution.set_obstacleMoveStartRight (readRight w)) w in
      emit (MotorsMoveForward Pwm.DEFAULT_SPEED) w
    else w
  else if wrap_ulong (millis w - turnStartTime w) >? MAX_TURN_TIME then
    let w := emit MotorsStop w in
    let w := set_turningInProgress false w in
    emit (Println "Timeout") w
  else w.

Definition beginNextWaypoint (w : World) : World :=
  let idx := RouteExecution.routeIndex (routeExec w) in
  if (idx <? 0) || (idx >=? ROUTE_COUNT) then stopRouteExecution w else
  let count := routesCounts idx in
  if count <=? 1 then
    if negb (RouteExecution.returnModeActive (routeExec w)) then
      let w := on_route (RouteExecution.set_postFinishTurn true) w in
      let w := startAutoTurn 180 w in
      on_route (RouteExecution.set_state ROUTE_TURNING) w
    else
      let w := on_route (RouteExecution.set_active false) w in
      on_route (RouteExecution.set_state ROUTE_DONE) w
  else
  let effectiveCount := count - 1 in
  if RouteExecution.currentPoint (routeExec w) >=? effectiveCount then
    if negb (RouteExecution.returnModeActive (routeExec w)) then
      let w := on_route (RouteExecution.set_postFinishTurn true) w in
      let w := startAutoTurn 180 w in
      on_route (RouteExecution.set_state ROUTE_TURNING) w
    else
      let w := on_route (RouteExecution.set_postFinishTurn true) w in
      let w := startAutoTurn 180 w in
      on_route (RouteExecution.set_state ROUTE_TURNING) w
  else
  let pIndex :=
    if RouteExecution.direction (routeExec w) =? 1
    then RouteExecution.currentPoint (routeExec w) + 1
    else count - 2 - RouteExecution.currentPoint (routeExec w) in
  if (pIndex <? 0) || (pIndex >=? count) then stopRouteExecution w else
  let w := on_route (RouteExecution.set_targetX (px (routePoint idx pIndex))) w in
  let w := on_route (RouteExecution.set_targetY (py (routePoint idx pIndex))) w in
  let curX := Odometry.getX (odometry w) in
  let curY := Odometry.getY (odometry w) in
  let curTh := Odometry.getThetaDegrees (odometry w) in
  let dx := (RouteExecution.targetX (routeExec w) - curX)%Q in
  let dy := (RouteExecution.targetY (routeExec w) - curY)%Q in
  let desired := (atan2f dy dx * 180 / PI)%Q in
  let delta := normalizeAngle (desired - curTh)%Q in
  let w := emit (WaypointLine pIndex
                   (mkPoint (RouteExecution.targetX (routeExec w))
                            (RouteExecution.targetY (routeExec w)))) w in
  let w := startAutoTurn delta w in
  on_route (RouteExecution.set_state ROUTE_TURNING) w.

Definition startRouteExecution (routeIndex : Z) (retorno : bool)
    (delayMilliseconds : Z) (w : World) : bool * World :=
  if RouteExecution.active (routeExec w) then (false, w) else
  if (routeIndex <? 0) || (routeIndex >=? ROUTE_COUNT) then (false, w) else
  let w := on_route (RouteExecution.set_active true) w in
  let w := on_route (RouteExecution.set_routeIndex routeIndex) w in
  let w := on_route (RouteExecution.set_direction (if retorno then -1 else 1)) w in
  let w := on_route (RouteExecution.set_requestMillis (millis w)) w in
  let w := on_route (RouteExecution.set_delayMs delayMilliseconds) w in
  let w := on_route (RouteExecution.set_currentPoint 0) w in
  let w := on_route (RouteExecution.set_state
                       (if delayMilliseconds >? 0 then ROUTE_WAITING else ROUTE_IDLE)) w in
  let w := on_route (RouteExecution.set_awaitingConfirm true) w in
  let w := if delayMilliseconds =? 0 then beginNextWaypoint w else w in
  (true, w).

(** The three places of the sketch that reach a waypoint do the same two
    statements: [routeExec.currentPoint++; beginNextWaypoint();]. *)
Definition advanceWaypoint (w : World) : World :=
  let w := on_route (RouteExecution.set_currentPoint
                       (RouteExecution.currentPoint (routeExec w) + 1)) w in
  beginNextWaypoint w.

(** Answers of the [/confirm_route] request. *)
Inductive ConfirmReply : Type :=
| CONFIRMED_RETURN
| CONFIRMED
| NO_SCHEDULE.

Definition http_status (r : ConfirmReply) : Z :=
  match r with
  | CONFIRMED_RETURN | CONFIRMED => 200
  | NO_SCHEDULE => 409
  end.

(** The [GET /confirm_route] branch of [handleClient]. *)
Definition handleClient_confirm_route (w : World) : ConfirmReply * World :=
  if RouteExecution.active (routeExec w)
     && RouteState_eqb (RouteExecution.state (routeExec w)) ROUTE_WAITING
     && RouteExecution.awaitingConfirm (routeExec w)
  then
    if RouteExecution.waitingForReturnConfirm (routeExec w) then
      let w := on_route (RouteExecution.set_awaitingConfirm false) w in
      let w := on_route (RouteExecution.set_waitingForReturnConfirm false) w in
      let w := on_route (RouteExecution.set_returnModeActive true) w in
      let w := on_route (RouteExecution.set_direction (-1)) w in
      let w := on_route (RouteExecution.set_currentPoint 0) w in
      (CONFIRMED_RETURN, beginNextWaypoint w)
    else
      let w := on_route (RouteExecution.set_awaitingConfirm false) w in
      (CONFIRMED, beginNextWaypoint w)
  else (NO_SCHEDULE, w).

(** The [GET /start_route] branch of [handleClient], after parameter parsing. *)
Definition handleClient_start_route (rIdx : Z) (retorno : bool) (delayMs : Z)
    (w : World) : Z * World :=
  let r := startRouteExecution rIdx retorno delayMs w in
  (if fst r then 200 else 409, snd r).

(** [routeExec.currentPoint++; (delay(pause);) beginNextWaypoint();] with the
    pause of the call site (80 ms after a normal arrival, none elsewhere). *)
Definition arriveAtWaypoint (pause : Z) (w : World) : World :=
  let w := on_route (RouteExecution.set_currentPoint
                       (RouteExecution.currentPoint (routeExec w) + 1)) w in
  let w := delay pause w in
  beginNextWaypoint w.

(** Statements shared by the end of a turn and the end of an avoidance:
    recompute the pulse distance to the target and start moving, or go on
    to the next waypoint when that distance rounds to zero. *)
Definition startMoveToTarget (w : World) : World :=
  let dx := (RouteExecution.targetX (routeExec w) - Odometry.getX (odometry w))%Q in
  let dy := (RouteExecution.targetY (routeExec w) - Odometry.getY (odometry w))%Q in
  let dist := sqrtf (dx * dx + dy * dy)%Q in
  let w := on_route (RouteExecution.set_moveTargetPulses (pulses_for_cm dist w)) w in
  let w := on_route (RouteExecution.set_moveStartLeft (readLeft w)) w in
  let w := on_route (RouteExecution.set_moveStartRight (readRight w)) w in
  if RouteExecution.moveTargetPulses (routeExec w) <=? 0 then
    arriveAtWaypoint 0 w
  else
    let w := emit (MotorsMoveForward Pwm.DEFAULT_SPEED) w in
    on_route (RouteExecution.set_state ROUTE_MOVING) w.

(** Confirmed obstacle: choose the side, stop, and request the 90 degree turn. *)
Definition triggerAvoidance (w : World) : World :=
  let r := distanciaSamples IR_LEFT_SIDE_PIN 3 w in
  let dL := fst r in
  let r := distanciaSamples IR_RIGHT_SIDE_PIN 3 (snd r) in
  let dR := fst r in
  let w := snd r in
  let w := on_route (RouteExecution.set_obstacleSide (if fgt dL dR then 1 else -1)) w in
  let w := on_route (RouteExecution.set_obstacleActive true) w in
  let w := on_route (RouteExecution.set_obstacleState 1) w in
  let w := emit MotorsStop w in
  let w := delay 30 w in
  let w := on_route (RouteExecution.set_obstacleProbePin
                       (if RouteExecution.obstacleSide (routeExec w) =? 1
                        then IR_RIGHT_SIDE_PIN else IR_LEFT_SIDE_PIN)) w in
  let w := on_route (RouteExecution.set_obstacleMoveMaxPulses
                       (pulses_for_cm AVOID_MAX_STEP_CM w)) w in
  startAutoTurn (inject_Z (RouteExecution.obstacleSide (routeExec w)) * 90)%Q w.

(** The [ROUTE_MOVING] branch of [loop()]. *)
Definition loop_routeMoving (w : World) : World :=
  let r := distanciaSamples IR_FRONT_LEFT_PIN 3 w in
  let dFL := fst r in
  let r := distanciaSamples IR_FRONT_RIGHT_PIN 3 (snd r) in
  let dFR := fst r in
  let w := snd r in
  let frontMin := if flt dFL dFR then dFL else dFR in
  if negb (RouteExecution.obstacleActive (routeExec w))
     && negb (RouteExecution.obstacleWaitActive (routeExec w))
     && fle frontMin OBSTACLE_THRESHOLD_CM
  then
    let w := on_route (RouteExecution.set_obstacleWaitActive true) w in
    on_route (RouteExecution.set_obstacleWaitStartMillis (millis w)) w
  else if negb (RouteExecution.obstacleActive (routeExec w))
          && RouteExecution.obstacleWaitActive (routeExec w)
  then
    if wrap_ulong (millis w - RouteExecution.obstacleWaitStartMillis (routeExec w))
       >=? OBSTACLE_DETECTION_DELAY_MS
    then
      let r := distanciaSamples IR_FRONT_LEFT_PIN 3 w in
      let dFL2 := fst r in
      let r := distanciaSamples IR_FRONT_RIGHT_PIN 3 (snd r) in
      let dFR2 := fst r in
      let w := snd r in
      let frontMin2 := if flt dFL2 dFR2 then dFL2 else dFR2 in
      let w := on_route (RouteExecution.set_obstacleWaitActive false) w in
      if fle frontMin2 OBSTACLE_THRESHOLD_CM then triggerAvoidance w else w
    else w
  else if RouteExecution.obstacleActive (routeExec w) then
    if RouteExecution.obstacleState (routeExec w) =? 2 then
      let r := distanciaSamples (RouteExecution.obstacleProbePin (routeExec w)) 3 w in
      let probeDist := fst r in
      let w := snd r in
      let maxm := max_moved (RouteExecution.obstacleMoveStartLeft (routeExec w))
                            (RouteExecution.obstacleMoveStartRight (routeExec w)) w in
      if fge probeDist (OBSTACLE_THRESHOLD_CM + AVOID_CLEAR_MARGIN_CM)%Q
         || (maxm >=? RouteExecution.obstacleMoveMaxPulses (routeExec w))
      then
        let w := emit MotorsStop w in
        let w := delay 30 w in
        let w := on_route (RouteExecution.set_obstacleState 3) w in
        startAutoTurn (inject_Z (- RouteExecution.obstacleSide (routeExec w)) * 90)%Q w
      else w
    else if RouteExecution.obstacleState (routeExec w) =? 4 then
      let maxm := max_moved (RouteExecution.obstacleMoveStartLeft (routeExec w))
                            (RouteExecution.obstacleMoveStartRight (routeExec w)) w in
      if maxm >=? RouteExecution.obstacleMoveTargetPulses (routeExec w) then
        let w := emit MotorsStop w in
        let w := delay 30 w in
        let w := on_route (RouteExecution.set_obstacleState 5) w in
        let w := on_route (RouteExecution.set_obstacleActive false) w in
        startMoveToTarget w
      else w
    else w
  else
    let maxm := max_moved (RouteExecution.moveStartLeft (routeExec w))
                          (RouteExecution.moveStartRight (routeExec w)) w in
    if maxm >=? RouteExecution.moveTargetPulses (routeExec w) then
      let w := emit MotorsStop w in
      arriveAtWaypoint 80 w
    else w.

(** The route-execution block of [loop()]. *)
Definition loop_routeExecution (w : World) : World :=
  if negb (RouteExecution.active (routeExec w)) then w else
  let now := millis w in
  match RouteExecution.state (routeExec w) with
  | ROUTE_WAITING =>
      if wrap_ulong (now - RouteExecution.requestMillis (routeExec w))
         >=? RouteExecution.delayMs (routeExec w)
      then beginNextWaypoint w else w
  | ROUTE_TURNING =>
      if negb (turningInProgress w) then startMoveToTarget w else w
  | ROUTE_MOVING => loop_routeMoving w
  | _ => w
  end.

(** One pass of [loop()] over the parts modelled here: the auto-turn
    handler, the route block and the closing [delay(5)]. *)
Definition loop_pass (w : World) : World :=
  delay 5 (loop_routeExecution (handleAutoTurn w)).

Fixpoint loop_passes (n : nat) (w : World) : World :=
  match n with
  | O => w
  | S n' => loop_passes n' (loop_pass w)
  end.

(** A leg as a sequence of arrivals: the first [beginNextWaypoint] and then
    one [arriveAtWaypoint] per pause in [pauses]. *)
Definition run_leg (pauses : list Z) (w : World) : World :=
  fold_left (fun w pause => arriveAtWaypoint pause w) pauses (beginNextWaypoint w).

(** The front reading of one pass that starts sampling at clock [t]: the
    left sensor is sampled at [t], the right one 15 ms later, and the smaller
    value counts. *)
Definition frontMin_at (t : Z) : Q :=
  let dFL := distancia IR_FRONT_LEFT_PIN t in
  let dFR := distancia IR_FRONT_RIGHT_PIN (t + 15) in
  if flt dFL dFR then dFL else dFR.

(** Waypoints announced on the serial line (index and coordinates), oldest
    first. *)
Definition waypoints_of (tr : list Effect) : list (Z * Point) :=
  rev (flat_map (fun e => match e with WaypointLine i p => [(i, p)] | _ => [] end) tr).

End Sketch.

(** The route table of the sketch. *)
Definition route0 : list Point := [mkPoint 0 0; mkPoint 30 0; mkPoint 30 30].
Definition route1 : list Point :=
  [mkPoint (-10) 5; mkPoint 0 10; mkPoint 10 5; mkPoint 0 0].
Definition route2 : list Point :=
  [mkPoint (-10) 5; mkPoint 0 10; mkPoint 10 5; mkPoint 0 0].
Definition route3 : list Point := [mkPoint 0 0; mkPoint 5 0; mkPoint 10 5].
Definition sketch_routes : list (list Point) := [route0; route1; route2; route3].

(** Globals of the sketch right after [setup()]. *)
Definition world_initial : World :=
  mkWorld routeExec_initial wallFollow_initial false 0 0 0 0 0
          (Odometry.mk 0 0 0 0 0) Encoder.DEFAULT_PULSES_PER_REVOLUTION 0 [].

(** * Specification-side definitions

    Predicates and reference functions in which the properties are stated,
    and the concrete inputs on which they are exercised. *)

(** The integers [lo, lo+1, ..., lo+n-1], for exhaustive checks. *)
Definition zrange (lo : Z) (n : nat) : list Z :=
  map (fun i => lo + Z.of_nat i) (seq 0 n).


(** What C10 asks of the two PWM inputs of one wheel after a command of
    [speed]: the idle input is 0 and the active one lies in
    [MIN_SPEED..MAX_SPEED]; magnitudes 1..79 end at exactly [MIN_SPEED];
    both inputs are 0 only for [speed = 0]. *)
Definition wheel_duty_ok (speed rpwm lpwm : Z) : Prop :=
  (0 < speed -> rpwm = 0 /\ Pwm.MIN_SPEED <= lpwm <= Pwm.MAX_SPEED) /\
  (speed < 0 -> lpwm = 0 /\ Pwm.MIN_SPEED <= rpwm <= Pwm.MAX_SPEED) /\
  (1 <= Z.abs speed <= 79 -> Z.max rpwm lpwm = Pwm.MIN_SPEED) /\
  (rpwm = 0 /\ lpwm = 0 <-> speed = 0).

(** The compensated right-wheel speed of the per-wheel variant. *)
Definition compensated (s : Z) : Z :=
  constrain (round (inject_Z s * MotorDriver.RIGHT_MOTOR_COMPENSATION))
            (- Pwm.MAX_SPEED) Pwm.MAX_SPEED.

Definition compensated_okb (s : Z) : bool :=
  let c := compensated s in
  (if 0 <? s then (0 <? c) && (c <=? 255) else true)
  && (if s <? 0 then (c <? 0) && (-255 <=? c) else true)
  && (if s =? 0 then c =? 0 else true)
  && (if Z.abs s <=? 79 then Z.abs c <? 80 else true).

(** An update passes the rate limiter when the loop is enabled, the caller's
    [dtMs] is not zero and at least [pidIntervalMs] have elapsed. *)
Definition passes (enabled : bool) (dtMs interval elapsed : Z) : Prop :=
  enabled = true /\ dtMs <> 0 /\ interval <= elapsed.

(** Both drivers with the velocity loop enabled and otherwise at their
    member initialisers. *)
Definition enabled_main : MotorDriverMain.t :=
  MotorDriverMain.mk true 0 50 0 0 (8 # 100) (2 # 100) (2 # 1000) 0 0 500 800.

Definition enabled_perwheel : MotorDriver.t :=
  MotorDriver.mk true 0 50 0 0 0 0
     (8 # 100) (2 # 100) (2 # 1000) 0 0
     (8 # 100) (2 # 100) (2 # 1000) 0 0
     500 600.

(** The waypoint index chosen at [currentPoint = c] on a route of [n]
    points, and the indices of [k] consecutive choices starting there. *)
Definition pindex (dir n c : Z) : Z := if dir =? 1 then c + 1 else n - 2 - c.

Definition visits (dir n c : Z) (k : nat) : list Z :=
  map (fun i => pindex dir n (c + Z.of_nat i)) (seq 0 k).

(** Element [i] of route [idx], paired with its index. *)
Definition waypoint_at (routes : list (list Point)) (idx i : Z) : Z * Point :=
  (i, routePoint routes idx i).

(** A world that is executing route [idx] in direction [dir] at
    [currentPoint = c]. *)
Definition on_leg (idx dir c : Z) (w : World) : Prop :=
  RouteExecution.routeIndex (routeExec w) = idx /\
  RouteExecution.direction (routeExec w) = dir /\
  RouteExecution.currentPoint (routeExec w) = c.

(** Concrete surroundings: wheels that do not move, a front obstacle at
    25 cm on every sensor, one that is gone after a second, and stand-ins
    for the two libm functions. *)
Definition still_encoder (t : Z) : Z := 0.
Definition obstacle_at_25 (pin t : Z) : Q := 25.
Definition obstacle_leaves (pin t : Z) : Q := if t <? 1000 then 25 else 60.
Definition test_atan2f (y x : Q) : Q := 0.
Definition test_sqrtf (x : Q) : Q := x.

(** A route under way in [ROUTE_MOVING] with a long straight ahead. *)
Definition moving_world : World :=
  on_route (RouteExecution.set_moveTargetPulses 100000)
    (on_route (RouteExecution.set_state ROUTE_MOVING)
       (on_route (RouteExecution.set_active true) world_initial)).

(** The same route right after an obstacle was confirmed: avoidance phase 1
    with its 90 degree turn requested. *)
Definition avoiding_world : World :=
  triggerAvoidance still_encoder still_encoder obstacle_at_25 moving_world.

(** Wall-following on the left side, no route. *)
Definition wall_world : World := startWallFollowing 1 world_initial.

(** A route scheduled with a delay and not yet confirmed. *)
Definition scheduled_world : World :=
  snd (startRouteExecution sketch_routes still_encoder still_encoder test_atan2f
         0 false 1000 world_initial).

(** Route B (four waypoints) selected, forward and return. *)
Definition forward_world : World :=
  on_route (RouteExecution.set_routeIndex 1) world_initial.

Definition return_world : World :=
  on_route (RouteExecution.set_direction (-1)) forward_world.


(** * Properties *)

(** Reduction behaviour: record updates unfold on sight, machine arithmetic
    and the float operations stay folded. *)
Arguments RouteExecution.set_active v r /.
Arguments RouteExecution.set_routeIndex v r /.
Arguments RouteExecution.set_direction v r /.
Arguments RouteExecution.set_requestMillis v r /.
Arguments RouteExecution.set_delayMs v r /.
Arguments RouteExecution.set_currentPoint v r /.
Arguments RouteExecution.set_state v r /.
Arguments RouteExecution.set_awaitingConfirm v r /.
Arguments RouteExecution.set_waitingForReturnConfirm v r /.
Arguments RouteExecution.set_returnModeActive v r /.
Arguments RouteExecution.set_postFinishTurn v r /.
Arguments RouteExecution.set_obstacleActive v r /.
Arguments RouteExecution.set_obstacleSide v r /.
Arguments RouteExecution.set_obstacleState v r /.
Arguments RouteExecution.set_obstacleMoveStartLeft v r /.
Arguments RouteExecution.set_obstacleMoveStartRight v r /.
Arguments RouteExecution.set_obstacleMoveTargetPulses v r /.
Arguments RouteExecution.set_obstacleMoveMaxPulses v r /.
Arguments RouteExecution.set_obstacleProbePin v r /.
Arguments RouteExecution.set_obstacleWaitActive v r /.
Arguments RouteExecution.set_obstacleWaitStartMillis v r /.
Arguments RouteExecution.set_moveStartLeft v r /.
Arguments RouteExecution.set_moveStartRight v r /.
Arguments RouteExecution.set_moveTargetPulses v r /.
Arguments RouteExecution.set_targetX v r /.
Arguments RouteExecution.set_targetY v r /.
Arguments WallFollow.set_active v r /.
Arguments WallFollow.set_side v r /.
Arguments WallFollow.set_state v r /.
Arguments WallFollow.set_allWallsDetectedStart v r /.
Arguments WallFollow.set_routeResumePending v r /.
Arguments WallFollow.set_resumeAction v r /.
Arguments set_routeExec v r /.
Arguments set_wallFollow v r /.
Arguments set_turningInProgress v r /.
Arguments set_targetAngle v r /.
Arguments set_turnStartTime v r /.
Arguments set_turnStartLeft0 v r /.
Arguments set_turnStartRight0 v r /.
Arguments set_turnTargetPulses v r /.
Arguments set_odometry v r /.
Arguments set_pulsesPerRevolution v r /.
Arguments set_clock v r /.
Arguments set_trace v r /.
Arguments on_route f w /.
Arguments on_wall f w /.
Arguments emit e w /.
Arguments delay ms w /.
Arguments millis w /.
Arguments wrap_long : simpl never.
Arguments wrap_ulong : simpl never.
Arguments long_of_float : simpl never.
Arguments normalize_loops : simpl never.
Arguments turn_pulsesF : simpl never.
Arguments pulses_for_cm : simpl never.
Arguments max_moved : simpl never.
Arguments fle : simpl never.
Arguments flt : simpl never.
Arguments fgt : simpl never.
Arguments fge : simpl never.
Arguments frontMin_at : simpl never.
Arguments waypoints_of : simpl never.

(** ** Machine integers *)



(** ** Finite checks over an integer interval *)

Lemma zrange_In (lo : Z) (n : nat) (z : Z) :
  lo <= z < lo + Z.of_nat n -> In z (zrange lo n).
Proof.
  intros H. unfold zrange. apply in_map_iff.
  exists (Z.to_nat (z - lo)). split; [lia|].
  apply in_seq. lia.
Qed.

Lemma forall_zrange (P : Z -> bool) (lo : Z) (n : nat) :
  forallb P (zrange lo n) = true ->
  forall z, lo <= z < lo + Z.of_nat n -> P z = true.
Proof.
  intros H z Hz. rewrite forallb_forall in H. apply H, zrange_In, Hz.
Qed.

(** ** Float comparisons *)





Lemma fle_iff (a b : Q) : fle a b = true <-> (a <= b)%Q.
Proof. apply Qle_bool_iff. Qed.

Lemma fle_false_iff (a b : Q) : fle a b = false <-> ~ (a <= b)%Q.
Proof.
  unfold fle. rewrite <- Qle_bool_iff. destruct (Qle_bool a b); split; congruence.
Qed.

(** ** Float-to-integer conversion *)




(** ** Encoder *)

Module EncoderFacts.
Import Encoder.
















End EncoderFacts.

(** ** Motor driver: PWM duties *)

Module MotorFacts.
Import Pwm.

Lemma compensated_ok (s : Z) :
  -255 <= s <= 255 ->
  let c := compensated s in
  (0 < s -> 0 < c <= 255) /\ (s < 0 -> -255 <= c < 0) /\
  (s = 0 -> c = 0) /\ (Z.abs s <= 79 -> Z.abs c < 80).
Proof.
  intros Hs.
  assert (H : compensated_okb s = true).
  { apply (forall_zrange compensated_okb (-255) 511); [vm_compute; reflexivity | lia]. }
  unfold compensated_okb in H. cbv zeta in *.
  repeat rewrite andb_true_iff in H. destruct H as [[[H1 H2] H3] H4].
  repeat split; intros.
  - destruct (Z.ltb_spec 0 s); [|lia]. rewrite andb_true_iff in H1. lia.
  - destruct (Z.ltb_spec 0 s); [|lia]. rewrite andb_true_iff in H1. lia.
  - destruct (Z.ltb_spec s 0); [|lia]. rewrite andb_true_iff in H2. lia.
  - destruct (Z.ltb_spec s 0); [|lia]. rewrite andb_true_iff in H2. lia.
  - destruct (Z.eqb_spec s 0); [|lia]. lia.
  - destruct (Z.leb_spec (Z.abs s) 79); [|lia]. lia.
Qed.

Lemma constrain_bounds (x lo hi : Z) :
  lo <= hi -> lo <= constrain x lo hi <= hi.
Proof.
  intros. unfold constrain.
  destruct (Z.ltb_spec x lo); [lia|]. destruct (Z.gtb_spec x hi); lia.
Qed.

Lemma constrain_sign (x m : Z) :
  0 < m ->
  (0 < x <-> 0 < constrain x (- m) m) /\ (x < 0 <-> constrain x (- m) m < 0) /\
  (Z.abs x <= m -> constrain x (- m) m = x).
Proof.
  intros. unfold constrain.
  destruct (Z.ltb_spec x (- m)); [lia|]. destruct (Z.gtb_spec x m); lia.
Qed.

Lemma constrain_cases (x lo hi : Z) :
  lo <= hi ->
  (x < lo /\ constrain x lo hi = lo) \/
  (lo <= x <= hi /\ constrain x lo hi = x) \/
  (hi < x /\ constrain x lo hi = hi).
Proof.
  intros. unfold constrain.
  destruct (Z.ltb_spec x lo); [lia|]. destruct (Z.gtb_spec x hi); lia.
Qed.

Ltac crush_cmp :=
  repeat match goal with
  | |- context [?a <? ?b] => destruct (Z.ltb_spec a b)
  | |- context [?a >? ?b] => destruct (Z.gtb_spec a b)
  | |- context [?a && ?b] => simpl andb
  end.

Lemma left_duty (speed : Z) (o : Pwm.t) :
  wheel_duty_ok speed (left_rpwm (MotorDriver.setLeftMotor speed o))
                      (left_lpwm (MotorDriver.setLeftMotor speed o)).
Proof.
  unfold wheel_duty_ok, MotorDriver.setLeftMotor.
  pose proof (constrain_cases speed (- MAX_SPEED) MAX_SPEED) as Hc.
  set (s := constrain speed (- MAX_SPEED) MAX_SPEED) in *. clearbody s.
  unfold MIN_SPEED, MAX_SPEED in *.
  crush_cmp; cbn; lia.
Qed.

Lemma main_left_duty (speed : Z) (o : Pwm.t) :
  wheel_duty_ok speed (left_rpwm (MotorDriverMain.setLeftMotor speed o))
                      (left_lpwm (MotorDriverMain.setLeftMotor speed o)).
Proof.
  unfold wheel_duty_ok, MotorDriverMain.setLeftMotor.
  pose proof (constrain_cases speed (- MAX_SPEED) MAX_SPEED) as Hc.
  set (s := constrain speed (- MAX_SPEED) MAX_SPEED) in *. clearbody s.
  unfold MIN_SPEED, MAX_SPEED in *.
  crush_cmp; cbn; lia.
Qed.

Lemma main_right_duty (speed : Z) (o : Pwm.t) :
  wheel_duty_ok speed (right_rpwm (MotorDriverMain.setRightMotor speed o))
                      (right_lpwm (MotorDriverMain.setRightMotor speed o)).
Proof.
  unfold wheel_duty_ok, MotorDriverMain.setRightMotor.
  pose proof (constrain_cases speed (- MAX_SPEED) MAX_SPEED) as Hc.
  set (s := constrain speed (- MAX_SPEED) MAX_SPEED) in *. clearbody s.
  unfold MIN_SPEED, MAX_SPEED in *.
  crush_cmp; cbn; lia.
Qed.

Lemma right_duty (speed : Z) (o : Pwm.t) :
  wheel_duty_ok speed (right_rpwm (MotorDriver.setRightMotor speed o))
                      (right_lpwm (MotorDriver.setRightMotor speed o)).
Proof.
  unfold wheel_duty_ok, MotorDriver.setRightMotor.
  fold (compensated (constrain speed (- MAX_SPEED) MAX_SPEED)).
  pose proof (constrain_bounds speed (- MAX_SPEED) MAX_SPEED ltac:(unfold MAX_SPEED; lia)) as Hb.
  pose proof (constrain_sign speed MAX_SPEED ltac:(unfold MAX_SPEED; lia)) as (Hp & Hn & Hid).
  pose proof (compensated_ok (constrain speed (- MAX_SPEED) MAX_SPEED) Hb) as Hc.
  cbv zeta in Hc.
  set (s := constrain speed (- MAX_SPEED) MAX_SPEED) in *.
  set (c := compensated s) in *.
  destruct Hc as (C1 & C2 & C3 & C4).
  unfold MIN_SPEED, MAX_SPEED in *.
  crush_cmp; cbn; lia.
Qed.

(** C10. For both driver variants and both wheels: after a command with a
    nonzero speed the idle PWM input is 0 and the active one carries a duty
    between [MIN_SPEED] (80) and [MAX_SPEED] (255); a commanded magnitude of
    1..79 ends at exactly 80; and both inputs of the wheel are 0 only for a
    commanded speed of exactly 0. *)
Theorem pwm_duty_range (speed : Z) (o : Pwm.t) :
  wheel_duty_ok speed (left_rpwm (MotorDriver.setLeftMotor speed o))
                      (left_lpwm (MotorDriver.setLeftMotor speed o)) /\
  wheel_duty_ok speed (right_rpwm (MotorDriver.setRightMotor speed o))
                      (right_lpwm (MotorDriver.setRightMotor speed o)) /\
  wheel_duty_ok speed (left_rpwm (MotorDriverMain.setLeftMotor speed o))
                      (left_lpwm (MotorDriverMain.setLeftMotor speed o)) /\
  wheel_duty_ok speed (right_rpwm (MotorDriverMain.setRightMotor speed o))
                      (right_lpwm (MotorDriverMain.setRightMotor speed o)).
Proof.
  split; [apply left_duty|]. split; [apply right_duty|].
  split; [apply main_left_duty | apply main_right_duty].
Qed.

Lemma pwm_duty_range_witness :
  1 <= Z.abs 40 <= 79 /\
  Z.max (right_rpwm (MotorDriver.setRightMotor 40 (Pwm.mk 0 0 0 0)))
        (right_lpwm (MotorDriver.setRightMotor 40 (Pwm.mk 0 0 0 0))) = MIN_SPEED /\
  Z.max (left_rpwm (MotorDriverMain.setLeftMotor (-40) (Pwm.mk 0 0 0 0)))
        (left_lpwm (MotorDriverMain.setLeftMotor (-40) (Pwm.mk 0 0 0 0))) = MIN_SPEED.
Proof.
  destruct (pwm_duty_range 40 (Pwm.mk 0 0 0 0)) as (_ & (_ & _ & R & _) & _).
  destruct (pwm_duty_range (-40) (Pwm.mk 0 0 0 0)) as (_ & _ & (_ & _ & L & _) & _).
  split; [cbn; lia|]. split; [apply R; cbn; lia | apply L; cbn; lia].
Defined.

End MotorFacts.

(** ** Motor driver: velocity loop *)

Module PidFacts.

Lemma setRightMotor_left (s : Z) (o : Pwm.t) :
  Pwm.left_rpwm (MotorDriver.setRightMotor s o) = Pwm.left_rpwm o /\
  Pwm.left_lpwm (MotorDriver.setRightMotor s o) = Pwm.left_lpwm o.
Proof.
  unfold MotorDriver.setRightMotor.
  repeat match goal with
  | |- context [if ?c then _ else _] => destruct c
  end; cbn; auto.
Qed.

Lemma setLeftMotor_right (s : Z) (o : Pwm.t) :
  Pwm.right_rpwm (MotorDriver.setLeftMotor s o) = Pwm.right_rpwm o /\
  Pwm.right_lpwm (MotorDriver.setLeftMotor s o) = Pwm.right_lpwm o.
Proof.
  unfold MotorDriver.setLeftMotor.
  repeat match goal with
  | |- context [if ?c then _ else _] => destruct c
  end; cbn; auto.
Qed.

Lemma setRightMotor_other (s : Z) (o1 o2 : Pwm.t) :
  Pwm.right_rpwm (MotorDriver.setRightMotor s o1)
    = Pwm.right_rpwm (MotorDriver.setRightMotor s o2) /\
  Pwm.right_lpwm (MotorDriver.setRightMotor s o1)
    = Pwm.right_lpwm (MotorDriver.setRightMotor s o2).
Proof.
  unfold MotorDriver.setRightMotor.
  repeat match goal with
  | |- context [if ?c then _ else _] => destruct c
  end; cbn; auto.
Qed.

(** C8 (amended).  In the per-wheel variant an update that passes the rate
    limiter computes each wheel's error from that wheel's own
    [deltaPulses / elapsedSeconds], and what a wheel receives (its applied
    setpoint, integral, previous error and its two PWM inputs) does not
    depend on the other wheel's pulse delta.  In the AMR-main variant the
    single regulator is driven by the mean of the two deltas over the
    elapsed seconds. *)
Theorem velocity_update_measured_speed
    (now l r dtMs : Z) (m : MotorDriver.t) (m' : MotorDriverMain.t) (o : Pwm.t) :
  (passes (MotorDriver.velocityControlEnabled m) dtMs (MotorDriver.pidIntervalMs m)
          (wrap_ulong (now - MotorDriver.lastPIDMillis m)) ->
   let dt := (inject_Z (wrap_ulong (now - MotorDriver.lastPIDMillis m)) / 1000)%Q in
   let res := MotorDriver.updateVelocityControl now l r dtMs m o in
   MotorDriver.prevErrorL (fst res)
     = (MotorDriver.appliedPpsLeft (fst res) - inject_Z l / dt)%Q /\
   MotorDriver.prevErrorR (fst res)
     = (MotorDriver.appliedPpsRight (fst res) - inject_Z r / dt)%Q /\
   (forall r2 : Z,
      MotorDriver.left_view (MotorDriver.updateVelocityControl now l r2 dtMs m o)
        = MotorDriver.left_view res) /\
   (forall l2 : Z,
      MotorDriver.right_view (MotorDriver.updateVelocityControl now l2 r dtMs m o)
        = MotorDriver.right_view res)) /\
  (passes (MotorDriverMain.velocityControlEnabled m') dtMs (MotorDriverMain.pidIntervalMs m')
          (wrap_ulong (now - MotorDriverMain.lastPIDMillis m')) ->
   let dt := (inject_Z (wrap_ulong (now - MotorDriverMain.lastPIDMillis m')) / 1000)%Q in
   let res := MotorDriverMain.updateVelocityControl now l r dtMs m' o in
   MotorDriverMain.prevError (fst res)
     = (MotorDriverMain.appliedPps (fst res)
        - (inject_Z l + inject_Z r) / 2 / dt)%Q).
Proof.
  split.
  - intros (He & Hd & Hi). cbv zeta.
    unfold MotorDriver.updateVelocityControl. rewrite He. cbn [negb].
    destruct (Z.eqb_spec dtMs 0); [contradiction|].
    destruct (Z.ltb_spec (wrap_ulong (now - MotorDriver.lastPIDMillis m))
                         (MotorDriver.pidIntervalMs m)); [lia|].
    cbn [fst snd MotorDriver.prevErrorL MotorDriver.prevErrorR
         MotorDriver.appliedPpsLeft MotorDriver.appliedPpsRight].
    split; [reflexivity|]. split; [reflexivity|]. split.
    + intros r2. unfold MotorDriver.left_view, MotorDriver.setBothMotors.
      cbn [fst snd MotorDriver.appliedPpsLeft MotorDriver.integralL MotorDriver.prevErrorL].
      rewrite !(proj1 (setRightMotor_left _ _)), !(proj2 (setRightMotor_left _ _)).
      reflexivity.
    + intros l2. unfold MotorDriver.right_view, MotorDriver.setBothMotors.
      cbn [fst snd MotorDriver.appliedPpsRight MotorDriver.integralR MotorDriver.prevErrorR].
      rewrite !(proj1 (setRightMotor_other _ (MotorDriver.setLeftMotor _ o) o)),
              !(proj2 (setRightMotor_other _ (MotorDriver.setLeftMotor _ o) o)).
      reflexivity.
  - intros (He & Hd & Hi). cbv zeta.
    unfold MotorDriverMain.updateVelocityControl. rewrite He. cbn [negb].
    destruct (Z.eqb_spec dtMs 0); [contradiction|].
    destruct (Z.ltb_spec (wrap_ulong (now - MotorDriverMain.lastPIDMillis m'))
                         (MotorDriverMain.pidIntervalMs m')); [lia|].
    reflexivity.
Qed.

Lemma velocity_update_measured_speed_witness :
  passes true 50 50 (wrap_ulong (50 - 0)) /\
  MotorDriver.prevErrorL
    (fst (MotorDriver.updateVelocityControl 50 100 0 50 enabled_perwheel (Pwm.mk 0 0 0 0)))
  = (MotorDriver.appliedPpsLeft
       (fst (MotorDriver.updateVelocityControl 50 100 0 50 enabled_perwheel (Pwm.mk 0 0 0 0)))
     - inject_Z 100 / (inject_Z (wrap_ulong (50 - 0)) / 1000))%Q /\
  MotorDriverMain.prevError
    (fst (MotorDriverMain.updateVelocityControl 50 100 0 50 enabled_main (Pwm.mk 0 0 0 0)))
  = (MotorDriverMain.appliedPps
       (fst (MotorDriverMain.updateVelocityControl 50 100 0 50 enabled_main (Pwm.mk 0 0 0 0)))
     - (inject_Z 100 + inject_Z 0) / 2 / (inject_Z (wrap_ulong (50 - 0)) / 1000))%Q.
Proof.
  assert (P : passes true 50 50 (wrap_ulong (50 - 0))).
  { unfold passes. repeat split; [discriminate | vm_compute; discriminate]. }
  destruct (velocity_update_measured_speed 50 100 0 50 enabled_perwheel enabled_main
              (Pwm.mk 0 0 0 0)) as [A B].
  split; [exact P|]. split.
  - exact (proj1 (A P)).
  - exact (B P).
Defined.

(** C8 does not hold of the AMR-main variant: with the same left delta,
    what the left wheel receives changes with the right delta. *)
Lemma main_variant_left_depends_on_right :
  MotorDriverMain.left_view
    (MotorDriverMain.updateVelocityControl 50 100 0 50 enabled_main (Pwm.mk 0 0 0 0))
  <> MotorDriverMain.left_view
    (MotorDriverMain.updateVelocityControl 50 100 100 50 enabled_main (Pwm.mk 0 0 0 0)).
Proof.
  vm_compute. intros H. discriminate H.
Qed.

End PidFacts.

(** ** The normalisation loops run to completion *)

Section Normalise.

Variable half : Q.
Hypothesis half_pos : (0 < half)%Q.





End Normalise.


Module OdometryFacts.
Import Odometry.

Section WithTrigonometry.

Variables cos sin : Q -> Q.

Lemma update_theta (e : Encoder.t) (l r : Z) (o : t) :
  theta (update cos sin e l r o) = normalize_loops PI (theta o + delta_heading e l r o).
Proof. reflexivity. Qed.



End WithTrigonometry.



End OdometryFacts.

(** ** The sketch: auto-turn, routes, avoidance *)

Section SketchFacts.

Variable routesPoints : list (list Point).
Variables encLeft encRight : Z -> Z.
Variable distancia : Z -> Z -> Q.
Variable atan2f : Q -> Q -> Q.
Variable sqrtf : Q -> Q.

Local Abbreviation startTurn := (startAutoTurn encLeft encRight).
Local Abbreviation handleTurn := (handleAutoTurn encLeft encRight).
Local Abbreviation beginNext := (beginNextWaypoint routesPoints encLeft encRight atan2f).
Local Abbreviation startRoute := (startRouteExecution routesPoints encLeft encRight atan2f).
Local Abbreviation confirmRoute := (handleClient_confirm_route routesPoints encLeft encRight atan2f).
Local Abbreviation arrive := (arriveAtWaypoint routesPoints encLeft encRight atan2f).
Local Abbreviation moved := (max_moved encLeft encRight).
Local Abbreviation routeMoving :=
  (loop_routeMoving routesPoints encLeft encRight distancia atan2f sqrtf).
Local Abbreviation frontMin := (frontMin_at distancia).
Local Abbreviation runLeg := (run_leg routesPoints encLeft encRight atan2f).
Local Abbreviation count_of := (routesCounts routesPoints).
Local Abbreviation at_index := (waypoint_at routesPoints).

(** *** Frame facts: what each helper leaves alone *)

Lemma startAutoTurn_frame (a : Q) (w : World) :
  routeExec (startTurn a w) = routeExec w /\
  wallFollow (startTurn a w) = wallFollow w /\
  odometry (startTurn a w) = odometry w /\
  pulsesPerRevolution (startTurn a w) = pulsesPerRevolution w /\
  clock (startTurn a w) = clock w /\
  turningInProgress (startTurn a w) = true /\
  turnTargetPulses (startTurn a w)
    = long_of_float (turn_pulsesF a (pulsesPerRevolution w) + (1 # 2)) /\
  exists l r, trace (startTurn a w) = MotorsSetBoth l r :: trace w.
Proof.
  unfold startAutoTurn. destruct (fgt a 0); cbn; repeat split; eauto.
Qed.

Lemma stopRouteExecution_frame (w : World) :
  wallFollow (stopRouteExecution w) = wallFollow w /\
  RouteExecution.active (routeExec (stopRouteExecution w)) = false /\
  waypoints_of (trace (stopRouteExecution w)) = waypoints_of (trace w).
Proof.
  unfold stopRouteExecution.
  destruct (RouteExecution.active (routeExec w)) eqn:E; cbn; auto.
Qed.

Lemma stopWallFollowing_frame (w : World) :
  routeExec (stopWallFollowing w) = routeExec w /\
  WallFollow.active (wallFollow (stopWallFollowing w)) = false.
Proof.
  unfold stopWallFollowing.
  destruct (WallFollow.active (wallFollow w)) eqn:E; cbn; auto.
Qed.

Lemma beginNextWaypoint_wallFollow (w : World) :
  wallFollow (beginNext w) = wallFollow w.
Proof.
  unfold beginNextWaypoint.
  repeat match goal with
  | |- context [if ?c then _ else _] => destruct c
  end;
  repeat first
    [ apply stopRouteExecution_frame
    | rewrite (proj1 (proj2 (startAutoTurn_frame _ _)))
    | reflexivity
    | progress cbn [on_route set_routeExec wallFollow] ].
Qed.


Lemma beginNextWaypoint_obstacle (w : World) :
  RouteExecution.obstacleActive (routeExec (beginNext w))
    = RouteExecution.obstacleActive (routeExec w).
Proof.
  unfold beginNextWaypoint, stopRouteExecution, startAutoTurn.
  repeat match goal with
  | |- context [if ?c then _ else _] => destruct c
  end; reflexivity.
Qed.

(** *** Rejected operator requests *)

(** C7. [startRouteExecution] answers [false] and changes nothing when a
    route is already active or the index is outside [0..ROUTE_COUNT-1], and
    a confirm request with no confirmation pending (more generally: route
    not active, not in [ROUTE_WAITING], or not awaiting confirmation) is
    answered 409 NO_SCHEDULE and changes nothing. *)
Theorem invalid_requests_rejected
    (routeIndex : Z) (retorno : bool) (delayMilliseconds : Z) (w : World) :
  ((RouteExecution.active (routeExec w) = true \/
    routeIndex < 0 \/ ROUTE_COUNT routesPoints <= routeIndex) ->
   startRoute routeIndex retorno delayMilliseconds w = (false, w)) /\
  ((RouteExecution.awaitingConfirm (routeExec w) = false \/
    RouteExecution.active (routeExec w) = false \/
    RouteExecution.state (routeExec w) <> ROUTE_WAITING) ->
   confirmRoute w = (NO_SCHEDULE, w) /\ http_status (fst (confirmRoute w)) = 409).
Proof.
  split.
  - intros H. unfold startRouteExecution.
    destruct (RouteExecution.active (routeExec w)); [reflexivity|].
    destruct H as [H | H]; [discriminate|].
    destruct (Z.ltb_spec routeIndex 0); [reflexivity|].
    destruct (Z.geb_spec routeIndex (ROUTE_COUNT routesPoints)); [reflexivity|lia].
  - intros H.
    assert (E : confirmRoute w = (NO_SCHEDULE, w)).
    { unfold handleClient_confirm_route.
      destruct (RouteExecution.active (routeExec w)) eqn:Ea;
      destruct (RouteExecution.awaitingConfirm (routeExec w)) eqn:Ec;
      destruct (RouteExecution.state (routeExec w)) eqn:Es; cbn; try reflexivity.
      destruct H as [H | [H | H]]; congruence. }
    rewrite E. split; reflexivity.
Qed.

(** *** Mutual exclusion of the two behaviours *)

Lemma startWallFollowing_stops_route (side : Z) (w : World) :
  RouteExecution.active (routeExec (startWallFollowing side w)) = false /\
  WallFollow.active (wallFollow (startWallFollowing side w)) = true.
Proof.
  unfold startWallFollowing. split; [|reflexivity].
  cbn [on_wall set_wallFollow routeExec].
  set (w1 := if WallFollow.active (wallFollow w) then stopWallFollowing w else w).
  destruct (RouteExecution.active (routeExec w1)) eqn:E; [|exact E].
  apply stopRouteExecution_frame.
Qed.

Lemma startRouteExecution_wallFollow
    (routeIndex : Z) (retorno : bool) (delayMilliseconds : Z) (w : World) :
  wallFollow (snd (startRoute routeIndex retorno delayMilliseconds w)) = wallFollow w.
Proof.
  unfold startRouteExecution.
  destruct (RouteExecution.active (routeExec w)); [reflexivity|].
  destruct ((routeIndex <? 0) || (routeIndex >=? ROUTE_COUNT routesPoints)); [reflexivity|].
  cbn [snd]. destruct (delayMilliseconds =? 0).
  - rewrite beginNextWaypoint_wallFollow. reflexivity.
  - reflexivity.
Qed.

(** C2 (what the code does).  Starting wall-following always leaves the
    route inactive, but [startRouteExecution] never touches the
    wall-following state: started with a delay while wall-following is
    active, it reports success and leaves both behaviours active. *)
Theorem route_start_keeps_wall_following
    (side routeIndex : Z) (retorno : bool) (delayMilliseconds : Z) (w : World) :
  WallFollow.active (wallFollow w) = true ->
  RouteExecution.active (routeExec w) = false ->
  0 <= routeIndex < ROUTE_COUNT routesPoints ->
  0 < delayMilliseconds ->
  RouteExecution.active (routeExec (startWallFollowing side w)) = false /\
  let r := startRoute routeIndex retorno delayMilliseconds w in
  fst r = true /\
  RouteExecution.active (routeExec (snd r)) = true /\
  WallFollow.active (wallFollow (snd r)) = true.
Proof.
  intros Hw Hr Hi Hd. split; [apply startWallFollowing_stops_route|].
  cbv zeta. rewrite startRouteExecution_wallFollow. split; [|split; [|exact Hw]].
  - unfold startRouteExecution. rewrite Hr.
    destruct (Z.ltb_spec routeIndex 0); [lia|].
    destruct (Z.geb_spec routeIndex (ROUTE_COUNT routesPoints)); [lia|]. reflexivity.
  - unfold startRouteExecution. rewrite Hr.
    destruct (Z.ltb_spec routeIndex 0); [lia|].
    destruct (Z.geb_spec routeIndex (ROUTE_COUNT routesPoints)); [lia|].
    destruct (Z.eqb_spec delayMilliseconds 0); [lia|]. reflexivity.
Qed.

(** *** The auto-turn handler *)

(** C1 (what the code does).  With an avoidance in phase 1 (or 3) and the
    turn still short of its pulse target, [handleAutoTurn] already moves to
    phase 2 (or 4), snapshots the pulse counts and commands forward motion
    while [turningInProgress] stays set; and on the pass where the target is
    reached it stops the turn but leaves the phase where it was. *)
Theorem avoidance_advances_during_turn (w : World) (phase : Z) :
  turningInProgress w = true ->
  RouteExecution.obstacleActive (routeExec w) = true ->
  RouteExecution.obstacleState (routeExec w) = phase ->
  phase = 1 \/ phase = 3 ->
  (moved (turnStartLeft0 w) (turnStartRight0 w) w < turnTargetPulses w ->
   let w' := handleTurn w in
   RouteExecution.obstacleState (routeExec w') = phase + 1 /\
   turningInProgress w' = true /\
   trace w' = MotorsMoveForward Pwm.DEFAULT_SPEED :: trace w /\
   RouteExecution.obstacleMoveStartLeft (routeExec w') = encLeft (clock w) /\
   RouteExecution.obstacleMoveStartRight (routeExec w') = encRight (clock w)) /\
  (turnTargetPulses w <= moved (turnStartLeft0 w) (turnStartRight0 w) w ->
   let w' := handleTurn w in
   RouteExecution.obstacleState (routeExec w') = phase /\
   turningInProgress w' = false /\
   trace w' = Println "OK" :: MotorsStop :: trace w).
Proof.
  intros Ht Ho Hs Hp. split; intros Hm; cbv zeta; unfold handleAutoTurn; rewrite Ht; cbn [negb].
  - destruct (Z.geb_spec (moved (turnStartLeft0 w) (turnStartRight0 w) w)
                         (turnTargetPulses w)); [lia|].
    rewrite Ho. subst phase. destruct Hp as [Hp | Hp]; rewrite !Hp; cbn; auto.
  - destruct (Z.geb_spec (moved (turnStartLeft0 w) (turnStartRight0 w) w)
                         (turnTargetPulses w)); [|lia].
    cbn [emit set_trace set_turningInProgress routeExec trace].
    subst phase.
    destruct (RouteExecution.postFinishTurn (routeExec w)); cbn;
      [destruct (RouteExecution.returnModeActive (routeExec w)); cbn|]; auto.
Qed.


(** *** Obstacle debounce in [ROUTE_MOVING] *)

Lemma triggerAvoidance_spec (w : World) :
  let w' := triggerAvoidance encLeft encRight distancia w in
  RouteExecution.obstacleActive (routeExec w') = true /\
  RouteExecution.obstacleState (routeExec w') = 1 /\
  RouteExecution.obstacleWaitActive (routeExec w')
    = RouteExecution.obstacleWaitActive (routeExec w) /\
  turningInProgress w' = true.
Proof.
  cbv zeta. unfold triggerAvoidance.
  repeat match goal with
  | |- context [startTurn ?a ?v] =>
      let H := fresh in
      pose proof (startAutoTurn_frame a v) as (H & _ & _ & _ & _ & ? & _);
      rewrite H
  end.
  cbn. auto.
Qed.

Lemma loop_routeExecution_moving (w : World) :
  RouteExecution.active (routeExec w) = true ->
  RouteExecution.state (routeExec w) = ROUTE_MOVING ->
  loop_routeExecution routesPoints encLeft encRight distancia atan2f sqrtf w
    = routeMoving w.
Proof.
  intros Ha Hs. unfold loop_routeExecution. rewrite Ha, Hs. reflexivity.
Qed.

(** C5. In [ROUTE_MOVING] with no avoidance active: a front minimum at or
    below 30 cm only arms the wait (flag set, start time recorded, no motor
    command, no turn); while fewer than 2000 ms have elapsed the pass does
    nothing but sample; once they have elapsed the front sensors are sampled
    again and avoidance starts (phase 1, turn requested) exactly when that
    second reading is still at or below 30 cm; otherwise only the wait flag
    is cleared and everything else of the movement is as before. *)
Theorem obstacle_debounce (w : World) :
  RouteExecution.obstacleActive (routeExec w) = false ->
  let w' := routeMoving w in
  let t := clock w in
  let elapsed :=
    wrap_ulong (wrap_ulong (t + 30) - RouteExecution.obstacleWaitStartMillis (routeExec w)) in
  (RouteExecution.obstacleWaitActive (routeExec w) = false ->
   (frontMin t <= OBSTACLE_THRESHOLD_CM)%Q ->
   w' = on_route (RouteExecution.set_obstacleWaitStartMillis (wrap_ulong (t + 30)))
          (on_route (RouteExecution.set_obstacleWaitActive true) (delay 30 w))) /\
  (RouteExecution.obstacleWaitActive (routeExec w) = true ->
   elapsed < OBSTACLE_DETECTION_DELAY_MS ->
   w' = delay 30 w) /\
  (RouteExecution.obstacleWaitActive (routeExec w) = true ->
   OBSTACLE_DETECTION_DELAY_MS <= elapsed ->
   (frontMin (t + 30) <= OBSTACLE_THRESHOLD_CM)%Q ->
   RouteExecution.obstacleActive (routeExec w') = true /\
   RouteExecution.obstacleState (routeExec w') = 1 /\
   RouteExecution.obstacleWaitActive (routeExec w') = false /\
   turningInProgress w' = true) /\
  (RouteExecution.obstacleWaitActive (routeExec w) = true ->
   OBSTACLE_DETECTION_DELAY_MS <= elapsed ->
   ~ (frontMin (t + 30) <= OBSTACLE_THRESHOLD_CM)%Q ->
   w' = on_route (RouteExecution.set_obstacleWaitActive false) (delay 60 w)) /\
  (RouteExecution.obstacleActive (routeExec w') = true ->
   RouteExecution.obstacleWaitActive (routeExec w) = true /\
   OBSTACLE_DETECTION_DELAY_MS <= elapsed /\
   (frontMin (t + 30) <= OBSTACLE_THRESHOLD_CM)%Q).
Proof.
  intros Ho. cbv zeta.
  unfold loop_routeMoving, distanciaSamples. cbn. rewrite Ho. cbn.
  replace (clock w + 15 + 15 + 15 + 15) with (clock w + 60) by lia.
  replace (clock w + 15 + 15) with (clock w + 30) by lia.
  fold (frontMin (clock w)). fold (frontMin (clock w + 30)).
  set (a := frontMin (clock w)). set (b := frontMin (clock w + 30)).
  set (elapsed := wrap_ulong (wrap_ulong (clock w + 30)
                    - RouteExecution.obstacleWaitStartMillis (routeExec w))).
  unfold OBSTACLE_DETECTION_DELAY_MS.
  destruct (RouteExecution.obstacleWaitActive (routeExec w)) eqn:Ew; cbn [negb andb].
  - destruct (Z.geb_spec elapsed 2000) as [Hge | Hlt].
    + destruct (fle b OBSTACLE_THRESHOLD_CM) eqn:Eb.
      * apply fle_iff in Eb.
        match goal with
        | |- context [triggerAvoidance _ _ _ ?v] =>
            pose proof (triggerAvoidance_spec v) as (T1 & T2 & T3 & T4)
        end.
        cbn in T3.
        repeat split; intros; try discriminate; try lia; try contradiction; auto.
      * apply fle_false_iff in Eb.
        repeat split; intros; try discriminate; try lia; try contradiction; auto;
          exfalso; cbn in *; congruence.
    + repeat split; intros; try discriminate; try lia; auto;
        exfalso; cbn in *; congruence.
  - destruct (fle a OBSTACLE_THRESHOLD_CM) eqn:Ea.
    + repeat split; intros; try discriminate; auto.
    + apply fle_false_iff in Ea.
      assert (Hno : forall v, RouteExecution.obstacleActive (routeExec v) = false ->
                RouteExecution.obstacleActive (routeExec (arrive 80 v)) = true -> False).
      { intros v Hv Hv'. unfold arriveAtWaypoint in Hv'.
        rewrite beginNextWaypoint_obstacle in Hv'. cbn in Hv'. congruence. }
      repeat split; intros; try discriminate; try contradiction.
      all: exfalso.
      all: match goal with
           | H : RouteExecution.obstacleActive (routeExec (if ?c then _ else _)) = true |- _ =>
               destruct c; [eapply Hno; [|exact H]; cbn; exact Ho | cbn in H; congruence]
           end.
Qed.



(** *** Waypoint sequencing *)

Lemma waypoints_of_cons (e : Effect) (tr : list Effect) :
  waypoints_of (e :: tr)
    = waypoints_of tr ++ match e with WaypointLine i p => [(i, p)] | _ => [] end.
Proof.
  unfold waypoints_of. cbn [flat_map]. rewrite rev_app_distr.
  destruct e; cbn [rev app]; rewrite ?app_nil_r; reflexivity.
Qed.

Lemma visits_S (dir n c : Z) (k : nat) :
  visits dir n c (S k) = pindex dir n c :: visits dir n (c + 1) k.
Proof.
  unfold visits. cbn [seq map]. rewrite Z.add_0_r. f_equal.
  rewrite <- seq_shift, map_map. apply map_ext. intros i. f_equal. lia.
Qed.

Lemma visits_forward (n : Z) (k : nat) (c : nat) :
  visits 1 n (Z.of_nat c) k = map Z.of_nat (seq (S c) k).
Proof.
  revert c. induction k as [|k IH]; intros c; [reflexivity|].
  rewrite visits_S. cbn [seq map]. f_equal.
  - unfold pindex. change (1 =? 1) with true. cbv iota. lia.
  - replace (Z.of_nat c + 1) with (Z.of_nat (S c)) by lia. apply IH.
Qed.

Lemma visits_return (k : nat) :
  visits (-1) (Z.of_nat (S k)) 0 k = rev (map Z.of_nat (seq 0 k)).
Proof.
  assert (G : forall j c : nat, (c + j = k)%nat ->
            visits (-1) (Z.of_nat (S k)) (Z.of_nat c) j
              = rev (map Z.of_nat (seq 0 j))).
  { induction j as [|j IH]; intros c Hc; [reflexivity|].
    rewrite visits_S. rewrite seq_S, map_app, rev_app_distr. cbn [map rev app plus].
    f_equal.
    - unfold pindex. change (-1 =? 1) with false. cbv iota. lia.
    - replace (Z.of_nat c + 1) with (Z.of_nat (S c)) by lia. apply IH. lia. }
  apply (G k 0%nat). lia.
Qed.

Section Leg.

Variable idx : Z.
Hypothesis idx_valid : 0 <= idx < ROUTE_COUNT routesPoints.
Hypothesis route_long : 2 <= count_of idx.

Lemma beginNext_select (dir c : Z) (w : World) :
  on_leg idx dir c w -> 0 <= c < count_of idx - 1 ->
  on_leg idx dir c (beginNext w) /\
  waypoints_of (trace (beginNext w))
    = waypoints_of (trace w) ++ [at_index idx (pindex dir (count_of idx) c)].
Proof.
  intros (Hi & Hd & Hc) Hr. unfold beginNextWaypoint. rewrite Hi, Hc, Hd.
  destruct (Z.ltb_spec idx 0); [lia|].
  destruct (Z.geb_spec idx (ROUTE_COUNT routesPoints)); [lia|]. cbn [orb].
  destruct (Z.leb_spec (count_of idx) 1); [lia|].
  destruct (Z.geb_spec c (count_of idx - 1)); [lia|].
  fold (pindex dir (count_of idx) c).
  assert (Hp : 0 <= pindex dir (count_of idx) c < count_of idx).
  { unfold pindex. destruct (dir =? 1); lia. }
  destruct (Z.ltb_spec (pindex dir (count_of idx) c) 0); [lia|].
  destruct (Z.geb_spec (pindex dir (count_of idx) c) (count_of idx)); [lia|]. cbn [orb].
  match goal with
  | |- context [startTurn ?a ?v] =>
      remember a as ang; remember v as u eqn:Hu;
      pose proof (startAutoTurn_frame ang u) as (F1 & _ & _ & _ & _ & _ & _ & l & r & F2)
  end.
  unfold on_leg. cbn. rewrite F1, F2. subst u. cbn.
  repeat split; auto.
  rewrite !waypoints_of_cons, app_nil_r. unfold waypoint_at.
  destruct (routePoint routesPoints idx (pindex dir (count_of idx) c)); reflexivity.
Qed.

Lemma beginNext_end (dir c : Z) (w : World) :
  on_leg idx dir c w -> count_of idx - 1 <= c ->
  on_leg idx dir c (beginNext w) /\
  RouteExecution.postFinishTurn (routeExec (beginNext w)) = true /\
  RouteExecution.state (routeExec (beginNext w)) = ROUTE_TURNING /\
  waypoints_of (trace (beginNext w)) = waypoints_of (trace w).
Proof.
  intros (Hi & Hd & Hc) Hr. unfold beginNextWaypoint. rewrite Hi, Hc.
  destruct (Z.ltb_spec idx 0); [lia|].
  destruct (Z.geb_spec idx (ROUTE_COUNT routesPoints)); [lia|]. cbn [orb].
  destruct (Z.leb_spec (count_of idx) 1); [lia|].
  destruct (Z.geb_spec c (count_of idx - 1)); [|lia].
  assert (G : forall v, on_leg idx dir c v ->
            let v' := on_route (RouteExecution.set_state ROUTE_TURNING)
                        (startTurn 180 (on_route (RouteExecution.set_postFinishTurn true) v)) in
            on_leg idx dir c v' /\
            RouteExecution.postFinishTurn (routeExec v') = true /\
            RouteExecution.state (routeExec v') = ROUTE_TURNING /\
            waypoints_of (trace v') = waypoints_of (trace v)).
  { intros v (Vi & Vd & Vc). cbv zeta.
    match goal with
    | |- context [startTurn ?a ?v0] =>
        remember v0 as u eqn:Hu;
        pose proof (startAutoTurn_frame a u) as (F1 & _ & _ & _ & _ & _ & _ & l & r & F2)
    end.
    unfold on_leg. cbn. rewrite F1, F2. subst u. cbn.
    repeat split; auto;
      try (rewrite waypoints_of_cons, app_nil_r; reflexivity). }
  destruct (negb (RouteExecution.returnModeActive (routeExec w))); apply G; repeat split; auto.
Qed.

Lemma arrive_on_leg (dir c pause : Z) (w : World) :
  on_leg idx dir c w ->
  on_leg idx dir (c + 1) (delay pause (on_route (RouteExecution.set_currentPoint
                        (RouteExecution.currentPoint (routeExec w) + 1)) w)) /\
  trace (delay pause (on_route (RouteExecution.set_currentPoint
                        (RouteExecution.currentPoint (routeExec w) + 1)) w)) = trace w.
Proof.
  intros (Hi & Hd & Hc). unfold on_leg. cbn. rewrite Hc. auto.
Qed.

Lemma arrivals_select (dir : Z) (pauses : list Z) :
  forall (c : Z) (w : World),
  on_leg idx dir c w -> 0 <= c ->
  c + Z.of_nat (length pauses) < count_of idx - 1 ->
  let w' := fold_left (fun v pause => arrive pause v) pauses w in
  on_leg idx dir (c + Z.of_nat (length pauses)) w' /\
  waypoints_of (trace w')
    = waypoints_of (trace w)
      ++ map (at_index idx) (visits dir (count_of idx) (c + 1) (length pauses)).
Proof.
  induction pauses as [|pause pauses IH]; intros c w Hw Hc Hlen; cbv zeta.
  - cbn. rewrite Z.add_0_r, app_nil_r. auto.
  - cbn [fold_left length] in *.
    destruct (arrive_on_leg dir c pause w Hw) as [Ha Htr].
    destruct (beginNext_select dir (c + 1) _ Ha ltac:(lia)) as [Hb Hv].
    destruct (IH (c + 1) _ Hb ltac:(lia) ltac:(lia)) as [I1 I2].
    cbv zeta in I1, I2. split.
    + replace (c + Z.of_nat (S (length pauses)))
        with (c + 1 + Z.of_nat (length pauses)) by lia. exact I1.
    + etransitivity; [exact I2|].
      rewrite Hv, Htr, visits_S, <- app_assoc. reflexivity.
Qed.

Lemma leg_visits (dir : Z) (pauses : list Z) (w : World) :
  on_leg idx dir 0 w ->
  Z.of_nat (length pauses) = count_of idx - 1 ->
  waypoints_of (trace (runLeg pauses w))
    = waypoints_of (trace w)
      ++ map (at_index idx) (visits dir (count_of idx) 0 (length pauses)) /\
  RouteExecution.postFinishTurn (routeExec (runLeg pauses w)) = true /\
  RouteExecution.state (routeExec (runLeg pauses w)) = ROUTE_TURNING.
Proof.
  intros Hw Hlen. unfold run_leg.
  destruct (beginNext_select dir 0 w Hw ltac:(lia)) as [Hb Hv].
  destruct (exists_last (l := pauses)) as (init & last & ->).
  { intros ->. cbn in Hlen. lia. }
  rewrite length_app in Hlen. cbn [length] in Hlen.
  rewrite fold_left_app. cbn [fold_left].
  destruct (arrivals_select dir init 0 _ Hb ltac:(lia) ltac:(lia)) as [I1 I2].
  cbv zeta in I1, I2.
  destruct (arrive_on_leg dir _ last _ I1) as [Ha Htr].
  destruct (beginNext_end dir _ _ Ha ltac:(lia)) as (_ & E1 & E2 & E3).
  split; [|split]; [| exact E1 | exact E2].
  etransitivity; [exact E3|].
  rewrite Htr, I2, Hv, <- app_assoc. f_equal.
  rewrite length_app. cbn [length].
  replace (length init + 1)%nat with (S (length init)) by lia.
  rewrite visits_S. reflexivity.
Qed.

End Leg.

Lemma short_route_no_visit (w : World) (pauses : list Z) :
  count_of (RouteExecution.routeIndex (routeExec w)) <= 1 ->
  waypoints_of (trace (runLeg pauses w)) = waypoints_of (trace w).
Proof.
  intros Hn.
  assert (B : forall v, RouteExecution.routeIndex (routeExec v)
                        = RouteExecution.routeIndex (routeExec w) ->
              RouteExecution.routeIndex (routeExec (beginNext v))
                = RouteExecution.routeIndex (routeExec w) /\
              waypoints_of (trace (beginNext v)) = waypoints_of (trace v)).
  { intros v Hv. unfold beginNextWaypoint. rewrite Hv.
    destruct ((RouteExecution.routeIndex (routeExec w) <? 0)
              || (RouteExecution.routeIndex (routeExec w) >=? ROUTE_COUNT routesPoints)).
    - unfold stopRouteExecution.
      destruct (RouteExecution.active (routeExec v)); cbn; auto.
    - destruct (Z.leb_spec (count_of (RouteExecution.routeIndex (routeExec w))) 1); [|lia].
      destruct (negb (RouteExecution.returnModeActive (routeExec v))).
      + match goal with
        | |- context [startTurn ?a ?v0] =>
            remember v0 as u eqn:Hu;
            pose proof (startAutoTurn_frame a u) as (F1 & _ & _ & _ & _ & _ & _ & l & r & F2)
        end.
        cbn. rewrite F1, F2. subst u. cbn.
        split; [exact Hv|].
        try (rewrite waypoints_of_cons, app_nil_r); reflexivity.
      + cbn. auto. }
  unfold run_leg.
  destruct (B w eq_refl) as [B1 B2]. rewrite <- B2.
  revert B1. clear B2. generalize (beginNext w).
  induction pauses as [|pause pauses IH]; intros v Hv; [reflexivity|].
  cbn [fold_left].
  destruct (B (delay pause (on_route (RouteExecution.set_currentPoint
                 (RouteExecution.currentPoint (routeExec v) + 1)) v)))
    as [C1 C2]; [cbn; exact Hv|].
  etransitivity; [apply IH; exact C1|]. exact C2.
Qed.

(** C3. On a route of [N >= 2] waypoints a forward leg announces exactly
    the elements at indices [1 .. N-1] in array order and a return leg
    exactly those at [N-2 .. 0] in reversed order, [N-1] waypoints each,
    after which the leg is over (the closing 180 degree turn is under way);
    a route of one waypoint announces none.  A leg is the first [beginNextWaypoint] and one
    arrival ([currentPoint++; beginNextWaypoint()]) per entry of [pauses]. *)
Theorem waypoint_skip_rule (w : World) (pauses : list Z) :
  let idx := RouteExecution.routeIndex (routeExec w) in
  let N := count_of idx in
  let visited (v : World) := skipn (length (waypoints_of (trace w))) (waypoints_of (trace v)) in
  (0 <= idx < ROUTE_COUNT routesPoints ->
   2 <= N ->
   RouteExecution.currentPoint (routeExec w) = 0 ->
   Z.of_nat (length pauses) = N - 1 ->
   (RouteExecution.direction (routeExec w) = 1 ->
    visited (runLeg pauses w)
      = map (at_index idx) (map Z.of_nat (seq 1 (Z.to_nat (N - 1))))) /\
   (RouteExecution.direction (routeExec w) = -1 ->
    visited (runLeg pauses w)
      = map (at_index idx) (rev (map Z.of_nat (seq 0 (Z.to_nat (N - 1)))))) /\
   Z.of_nat (length (visited (runLeg pauses w))) = N - 1 /\
   RouteExecution.postFinishTurn (routeExec (runLeg pauses w)) = true /\
   RouteExecution.state (routeExec (runLeg pauses w)) = ROUTE_TURNING) /\
  (N <= 1 -> visited (runLeg pauses w) = []).
Proof.
  cbv zeta. split.
  - intros Hi HN Hc Hlen.
    destruct (leg_visits _ Hi HN (RouteExecution.direction (routeExec w)) pauses w
                ltac:(unfold on_leg; auto) Hlen) as (V & P & St).
    rewrite V, skipn_app, Nat.sub_diag, skipn_all. cbn [app skipn].
    replace (Z.to_nat (count_of (RouteExecution.routeIndex (routeExec w)) - 1))
      with (length pauses) by lia.
    repeat split; auto.
    + intros ->. f_equal. apply (visits_forward _ _ 0%nat).
    + intros ->. f_equal.
      replace (count_of (RouteExecution.routeIndex (routeExec w)))
        with (Z.of_nat (S (length pauses))) by lia.
      apply visits_return.
    + unfold visits. rewrite !length_map, length_seq. exact Hlen.
  - intros HN. rewrite short_route_no_visit by exact HN. apply skipn_all.
Qed.


(** *** Turn target and completion *)


End SketchFacts.

(** ** The properties on concrete worlds *)

Lemma invalid_requests_rejected_witness :
  RouteExecution.active (routeExec scheduled_world) = true /\
  startRouteExecution sketch_routes still_encoder still_encoder test_atan2f
    1 false 0 scheduled_world = (false, scheduled_world) /\
  RouteExecution.awaitingConfirm (routeExec world_initial) = false /\
  handleClient_confirm_route sketch_routes still_encoder still_encoder test_atan2f
    world_initial = (NO_SCHEDULE, world_initial).
Proof.
  assert (Ha : RouteExecution.active (routeExec scheduled_world) = true)
    by (vm_compute; reflexivity).
  assert (Hc : RouteExecution.awaitingConfirm (routeExec world_initial) = false)
    by (vm_compute; reflexivity).
  destruct (invalid_requests_rejected sketch_routes still_encoder still_encoder test_atan2f
              1 false 0 scheduled_world) as [S _].
  destruct (invalid_requests_rejected sketch_routes still_encoder still_encoder test_atan2f
              1 false 0 world_initial) as [_ C].
  split; [exact Ha|]. split; [exact (S (or_introl Ha))|]. split; [exact Hc|].
  exact (proj1 (C (or_introl Hc))).
Defined.

Lemma route_start_keeps_wall_following_witness :
  WallFollow.active (wallFollow wall_world) = true /\
  RouteExecution.active (routeExec wall_world) = false /\
  let r := startRouteExecution sketch_routes still_encoder still_encoder test_atan2f
             0 false 1000 wall_world in
  fst r = true /\
  RouteExecution.active (routeExec (snd r)) = true /\
  WallFollow.active (wallFollow (snd r)) = true.
Proof.
  assert (Hw : WallFollow.active (wallFollow wall_world) = true)
    by (vm_compute; reflexivity).
  assert (Hr : RouteExecution.active (routeExec wall_world) = false)
    by (vm_compute; reflexivity).
  assert (Hi : 0 <= 0 < ROUTE_COUNT sketch_routes) by (vm_compute; split; congruence).
  assert (Hd : 0 < 1000) by lia.
  destruct (route_start_keeps_wall_following sketch_routes still_encoder still_encoder
              test_atan2f 1 0 false 1000 wall_world Hw Hr Hi Hd) as [_ H].
  split; [exact Hw|]. split; [exact Hr|]. exact H.
Defined.

Lemma avoidance_advances_during_turn_witness :
  turningInProgress avoiding_world = true /\
  max_moved still_encoder still_encoder (turnStartLeft0 avoiding_world)
            (turnStartRight0 avoiding_world) avoiding_world
    < turnTargetPulses avoiding_world /\
  let w' := handleAutoTurn still_encoder still_encoder avoiding_world in
  RouteExecution.obstacleState (routeExec w') = 2 /\
  turningInProgress w' = true /\
  trace w' = MotorsMoveForward Pwm.DEFAULT_SPEED :: trace avoiding_world.
Proof.
  assert (Ht : turningInProgress avoiding_world = true) by (vm_compute; reflexivity).
  assert (Ho : RouteExecution.obstacleActive (routeExec avoiding_world) = true)
    by (vm_compute; reflexivity).
  assert (Hs : RouteExecution.obstacleState (routeExec avoiding_world) = 1)
    by (vm_compute; reflexivity).
  assert (Hm : max_moved still_encoder still_encoder (turnStartLeft0 avoiding_world)
                 (turnStartRight0 avoiding_world) avoiding_world
               < turnTargetPulses avoiding_world) by (vm_compute; reflexivity).
  destruct (avoidance_advances_during_turn still_encoder still_encoder avoiding_world 1
              Ht Ho Hs (or_introl eq_refl)) as [A _].
  destruct (A Hm) as (A1 & A2 & A3 & _).
  split; [exact Ht|]. split; [exact Hm|]. cbv zeta.
  split; [exact A1|]. split; [exact A2 | exact A3].
Defined.


Lemma obstacle_debounce_witness :
  RouteExecution.obstacleActive (routeExec moving_world) = false /\
  (frontMin_at obstacle_at_25 (clock moving_world) <= OBSTACLE_THRESHOLD_CM)%Q /\
  loop_routeMoving sketch_routes still_encoder still_encoder obstacle_at_25
                   test_atan2f test_sqrtf moving_world
  = on_route (RouteExecution.set_obstacleWaitStartMillis
                (wrap_ulong (clock moving_world + 30)))
      (on_route (RouteExecution.set_obstacleWaitActive true) (delay 30 moving_world)).
Proof.
  assert (Ho : RouteExecution.obstacleActive (routeExec moving_world) = false)
    by (vm_compute; reflexivity).
  assert (Hf : (frontMin_at obstacle_at_25 (clock moving_world) <= OBSTACLE_THRESHOLD_CM)%Q)
    by (vm_compute; congruence).
  destruct (obstacle_debounce sketch_routes still_encoder still_encoder obstacle_at_25
              test_atan2f test_sqrtf moving_world Ho) as (First & _).
  split; [exact Ho|]. split; [exact Hf|].
  apply First; [vm_compute; reflexivity | exact Hf].
Defined.

Lemma waypoint_skip_rule_witness :
  0 <= RouteExecution.routeIndex (routeExec forward_world) < ROUTE_COUNT sketch_routes /\
  Z.of_nat (length [80; 80; 80])
    = routesCounts sketch_routes (RouteExecution.routeIndex (routeExec forward_world)) - 1 /\
  skipn (length (waypoints_of (trace forward_world)))
        (waypoints_of (trace (run_leg sketch_routes still_encoder still_encoder test_atan2f
                                [80; 80; 80] forward_world)))
  = map (waypoint_at sketch_routes (RouteExecution.routeIndex (routeExec forward_world)))
      (map Z.of_nat (seq 1 (Z.to_nat
        (routesCounts sketch_routes
           (RouteExecution.routeIndex (routeExec forward_world)) - 1)))) /\
  skipn (length (waypoints_of (trace return_world)))
        (waypoints_of (trace (run_leg sketch_routes still_encoder still_encoder test_atan2f
                                [80; 80; 80] return_world)))
  = map (waypoint_at sketch_routes (RouteExecution.routeIndex (routeExec return_world)))
      (rev (map Z.of_nat (seq 0 (Z.to_nat
        (routesCounts sketch_routes
           (RouteExecution.routeIndex (routeExec return_world)) - 1))))).
Proof.
  assert (Hi : 0 <= RouteExecution.routeIndex (routeExec forward_world)
               < ROUTE_COUNT sketch_routes) by (vm_compute; split; congruence).
  assert (HN : 2 <= routesCounts sketch_routes
                      (RouteExecution.routeIndex (routeExec forward_world)))
    by (vm_compute; congruence).
  assert (Hl : Z.of_nat (length [80; 80; 80])
               = routesCounts sketch_routes
                   (RouteExecution.routeIndex (routeExec forward_world)) - 1)
    by (vm_compute; reflexivity).
  destruct (waypoint_skip_rule sketch_routes still_encoder still_encoder test_atan2f
              forward_world [80; 80; 80]) as [F _].
  destruct (F Hi HN eq_refl Hl) as (Fwd & _).
  destruct (waypoint_skip_rule sketch_routes still_encoder still_encoder test_atan2f
              return_world [80; 80; 80]) as [R _].
  destruct (R Hi HN eq_refl Hl) as (_ & Ret & _).
  split; [exact Hi|]. split; [exact Hl|]. split; [exact (Fwd eq_refl) | exact (Ret eq_refl)].
Defined.

(** The two scenarios of the debounce, run over whole passes of the loop:
    an obstacle that stays at 25 cm has started the avoidance after 59
    passes (and not after 58); one that is gone after a second never does. *)
Example debounce_obstacle_stays :
  RouteExecution.obstacleActive (routeExec
    (loop_passes sketch_routes still_encoder still_encoder obstacle_at_25
                 test_atan2f test_sqrtf 58 moving_world)) = false /\
  RouteExecution.obstacleActive (routeExec
    (loop_passes sketch_routes still_encoder still_encoder obstacle_at_25
                 test_atan2f test_sqrtf 59 moving_world)) = true.
Proof. split; vm_compute; reflexivity. Qed.

Example debounce_obstacle_leaves :
  forallb (fun n =>
    negb (RouteExecution.obstacleActive (routeExec
      (loop_passes sketch_routes still_encoder still_encoder obstacle_leaves
                   test_atan2f test_sqrtf n moving_world))))
    (seq 0 120) = true.
Proof. vm_compute. reflexivity. Qed.

(** The route of the scenario [(0,0), (30,0), (30,30)], forward: the leg
    announces [(30,0)] and then [(30,30)]. *)
Example route_a_forward :
  waypoints_of (trace (run_leg sketch_routes still_encoder still_encoder test_atan2f
                         [80; 80] world_initial))
  = [(1, mkPoint 30 0); (2, mkPoint 30 30)].
Proof. vm_compute. reflexivity. Qed.
